(** * Verification of [nlp/analise_nlp_spacy_lemma_parsing_chunks.py]

    The script loads a pre-trained spaCy model, runs it over one text file
    and writes four artefacts: a token table (CSV), the noun chunks, the
    named entities and an HTML rendering of the dependency parse.

    The embedding is shallow.  Python [str] values are lists of Unicode
    code points, files hold bytes, the host (file system, installed
    packages, the loaded model) is an explicit state, and the script's
    statements are computations in a state-and-exception monad that also
    records a trace of the effects they attempt. *)

From Stdlib Require Import String Ascii NArith ZArith Lia Bool.
From stdpp Require Import base option list countable gmap.

Open Scope N_scope.

(** ** Python strings *)

(** A Python [str] is a sequence of code points. *)
Abbreviation pystr := (list N).

(** String literals of the source that are pure ASCII. *)
Fixpoint py (s : string) : pystr :=
  match s with
  | EmptyString => []
  | String a s' => N_of_ascii a :: py s'
  end.

Definition LF : N := 10.
Definition CR : N := 13.
Definition COMMA : N := 44.
Definition DQUOTE : N := 34.
Definition SPACE : N := 32.
Definition LPAREN : N := 40.
Definition RPAREN : N := 41.
(** U+00E9, LATIN SMALL LETTER E WITH ACUTE (precomposed in the source). *)
Definition E_ACUTE : N := 233.
(** U+00E3, LATIN SMALL LETTER A WITH TILDE. *)
Definition A_TILDE : N := 227.
(** U+00ED, LATIN SMALL LETTER I WITH ACUTE. *)
Definition I_ACUTE : N := 237.
(** U+00E1, LATIN SMALL LETTER A WITH ACUTE. *)
Definition A_ACUTE : N := 225.
(** U+00EA, LATIN SMALL LETTER E WITH CIRCUMFLEX. *)
Definition E_CIRC : N := 234.

Fixpoint str_eqb (a b : pystr) : bool :=
  match a, b with
  | [], [] => true
  | x :: a', y :: b' => (x =? y) && str_eqb a' b'
  | _, _ => false
  end.

(** [sep.join(items)] *)
Fixpoint join (sep : pystr) (items : list pystr) : pystr :=
  match items with
  | [] => []
  | [x] => x
  | x :: rest => x ++ sep ++ join sep rest
  end.

(** The lines of a text, in the sense of [str.splitlines] restricted to
    the line feed: a final line feed does not open a further line, and
    the empty text has no line. *)
Fixpoint splitlines_from (cur : pystr) (s : pystr) : list pystr :=
  match s with
  | [] => match cur with [] => [] | _ => [rev cur] end
  | c :: s' =>
      if c =? LF then rev cur :: splitlines_from [] s'
      else splitlines_from (c :: cur) s'
  end.

Definition splitlines (s : pystr) : list pystr := splitlines_from [] s.

Definition line_count (s : pystr) : nat := length (splitlines s).

(** ** UTF-8 *)

(** Bytes are numbers below 256. *)
Abbreviation bytes := (list N).

Definition is_surrogate (c : N) : bool := (0xD800 <=? c) && (c <=? 0xDFFF).

(** [c.encode("utf-8")] for one code point; lone surrogates and values
    beyond U+10FFFF have no encoding (strict error handler). *)
Definition utf8_encode_char (c : N) : option bytes :=
  if c <? 0x80 then Some [c]
  else if c <? 0x800 then
    Some [N.lor 0xC0 (N.shiftr c 6); N.lor 0x80 (N.land c 0x3F)]
  else if c <? 0x10000 then
    if is_surrogate c then None
    else Some [N.lor 0xE0 (N.shiftr c 12);
               N.lor 0x80 (N.land (N.shiftr c 6) 0x3F);
               N.lor 0x80 (N.land c 0x3F)]
  else if c <? 0x110000 then
    Some [N.lor 0xF0 (N.shiftr c 18);
          N.lor 0x80 (N.land (N.shiftr c 12) 0x3F);
          N.lor 0x80 (N.land (N.shiftr c 6) 0x3F);
          N.lor 0x80 (N.land c 0x3F)]
  else None.

Fixpoint utf8_encode (s : pystr) : option bytes :=
  match s with
  | [] => Some []
  | c :: s' =>
      match utf8_encode_char c, utf8_encode s' with
      | Some b, Some bs => Some (b ++ bs)
      | _, _ => None
      end
  end.

Definition is_cont (b : N) : bool := (0x80 <=? b) && (b <=? 0xBF).

Definition cont_bits (b : N) : N := N.land b 0x3F.

(** [bs.decode("utf-8")], strict: rejects stray continuation bytes,
    truncated sequences, overlong forms, surrogates and values beyond
    U+10FFFF. *)
Fixpoint utf8_decode (bs : bytes) : option pystr :=
  match bs with
  | [] => Some []
  | b0 :: r0 =>
      if b0 <? 0x80 then cons b0 <$> utf8_decode r0
      else if (0xC2 <=? b0) && (b0 <=? 0xDF) then
        match r0 with
        | b1 :: r1 =>
            if is_cont b1
            then cons (N.lor (N.shiftl (N.land b0 0x1F) 6) (cont_bits b1))
                   <$> utf8_decode r1
            else None
        | _ => None
        end
      else if (0xE0 <=? b0) && (b0 <=? 0xEF) then
        match r0 with
        | b1 :: b2 :: r2 =>
            let c := N.lor (N.shiftl (N.land b0 0x0F) 12)
                       (N.lor (N.shiftl (cont_bits b1) 6) (cont_bits b2)) in
            if is_cont b1 && is_cont b2 && (0x800 <=? c) && negb (is_surrogate c)
            then cons c <$> utf8_decode r2
            else None
        | _ => None
        end
      else if (0xF0 <=? b0) && (b0 <=? 0xF4) then
        match r0 with
        | b1 :: b2 :: b3 :: r3 =>
            let c := N.lor (N.shiftl (N.land b0 0x07) 18)
                       (N.lor (N.shiftl (cont_bits b1) 12)
                          (N.lor (N.shiftl (cont_bits b2) 6) (cont_bits b3))) in
            if is_cont b1 && is_cont b2 && is_cont b3
               && (0x10000 <=? c) && (c <? 0x110000)
            then cons c <$> utf8_decode r3
            else None
        | _ => None
        end
      else None
  end.

(** Reading in text mode with the default [newline=None] translates the
    three line endings to a line feed. *)
Fixpoint universal_newlines (s : pystr) : pystr :=
  match s with
  | [] => []
  | c :: r =>
      if c =? CR then
        match r with
        | d :: r' =>
            if d =? LF then LF :: universal_newlines r'
            else LF :: universal_newlines r
        | [] => [LF]
        end
      else c :: universal_newlines r
  end.

(** ** Exceptions *)

(** The exception classes that the script's library calls raise, with
    the part of Python's class hierarchy that relates them. *)
Inductive exn :=
  | BaseException | KeyboardInterrupt | PyException
  | ImportError | ModuleNotFoundError
  | OSError | FileNotFoundError | IsADirectoryError | PermissionError
  | ValueError | UnicodeError | UnicodeDecodeError | UnicodeEncodeError
  | EOFError | RuntimeError | MemoryError | LookupError | KeyError
  | SubprocessError | CalledProcessError.

#[global] Instance exn_eq_dec : EqDecision exn.
Proof. solve_decision. Defined.

(** The direct base class. *)
Definition base (c : exn) : option exn :=
  match c with
  | BaseException => None
  | KeyboardInterrupt => Some BaseException
  | PyException => Some BaseException
  | ImportError => Some PyException
  | ModuleNotFoundError => Some ImportError
  | OSError => Some PyException
  | FileNotFoundError => Some OSError
  | IsADirectoryError => Some OSError
  | PermissionError => Some OSError
  | ValueError => Some PyException
  | UnicodeError => Some ValueError
  | UnicodeDecodeError => Some UnicodeError
  | UnicodeEncodeError => Some UnicodeError
  | EOFError => Some PyException
  | RuntimeError => Some PyException
  | MemoryError => Some PyException
  | LookupError => Some PyException
  | KeyError => Some LookupError
  | SubprocessError => Some PyException
  | CalledProcessError => Some SubprocessError
  end.

Fixpoint mro_upto (depth : nat) (c : exn) : list exn :=
  match depth with
  | O => []
  | S d => c :: match base c with Some b => mro_upto d b | None => [] end
  end.

(** The hierarchy above is five classes deep. *)
Definition mro (c : exn) : list exn := mro_upto 5 c.

(** [isinstance(e, cls)], which is what an [except cls:] clause tests. *)
Definition isinstance (e cls : exn) : bool := bool_decide (cls ∈ mro e).

Inductive result (A : Type) :=
  | Ok (a : A)
  | Raise (e : exn).
Arguments Ok {A} a.
Arguments Raise {A} e.

(** ** What the model returns *)

Module Token.
Record t := mk {
  text : pystr;
  lemma_ : pystr;
  pos_ : pystr;
  tag_ : pystr;
  dep_ : pystr;
  shape_ : pystr;
  is_alpha : bool;
  is_stop : bool
}.
End Token.

Module Span.
Record t := mk {
  text : pystr;
  label_ : pystr
}.
End Span.

Module Doc.
Record t := mk {
  tokens : list Token.t;
  noun_chunks : list Span.t;
  ents : list Span.t
}.
End Doc.

(** A loaded pipeline ([nlp]) maps a text to a document or raises. *)
Definition Language := pystr -> result Doc.t.

(** ** The host and the world *)

Inductive node :=
  | File (readable writable : bool) (content : bytes)
  | Dir.

Inductive spawn_outcome :=
  | Exited (returncode : Z)
  | LaunchFailed (e : exn).

Inductive event :=
  | EvPrint (s : pystr)
  | EvPrompt (s : pystr)
  | EvImport (module : pystr)
  | EvSpacyLoad (name : pystr)
  | EvOpenRead (path : pystr)
  | EvOpenWrite (path : pystr)
  | EvNlp (text : pystr)
  | EvRender
  | EvSpawn (cmd : list pystr).

(** The machine the script runs on: its files, what [import] and
    [spacy.load] give with the packages and models installed on it, and
    its source of random identifiers: [uuid_hex n] is the hexadecimal
    form of the [n]-th [uuid.uuid4()] still to be drawn. *)
Record Host := mkHost {
  fs : gmap pystr node;
  import_module : pystr -> option exn;
  spacy_load_result : pystr -> result Language;
  uuid_hex : nat -> pystr
}.

Record World := mkWorld {
  host : Host;
  stdin : list pystr;
  trace : list event
}.

Definition log (ev : event) (w : World) : World :=
  mkWorld (host w) (stdin w) (trace w ++ [ev]).

Definition set_host (h : Host) (w : World) : World :=
  mkWorld h (stdin w) (trace w).

Definition set_fs (f : gmap pystr node) (h : Host) : Host :=
  mkHost f (import_module h) (spacy_load_result h) (uuid_hex h).

(** The host once an identifier has been drawn. *)
Definition next_uuid (h : Host) : Host :=
  mkHost (fs h) (import_module h) (spacy_load_result h) (fun n => uuid_hex h (S n)).

(** The world once an identifier has been drawn. *)
Definition drawn (w : World) : World := set_host (next_uuid (host w)) w.

(** ** The monad of statements *)

Definition M (A : Type) : Type := World -> result A * World.

Definition ret {A} (a : A) : M A := fun w => (Ok a, w).

Definition raise {A} (e : exn) : M A := fun w => (Raise e, w).

Definition bind {A B} (c : M A) (k : A -> M B) : M B :=
  fun w =>
    match c w with
    | (Ok a, w') => k a w'
    | (Raise e, w') => (Raise e, w')
    end.

Notation "'let*' x ':=' c 'in' k" := (bind c (fun x => k))
  (at level 10, x name, c at level 100, k at level 200).
Notation "c1 ;;; c2" := (bind c1 (fun _ => c2))
  (at level 100, c2 at level 200, right associativity).

Definition lift_result {A} (r : result A) : M A := fun w => (r, w).

Definition emit (ev : event) : M unit := fun w => (Ok tt, log ev w).

(** [try: body / except cls1: h1 / except cls2: h2 ...]: the first clause
    whose class the exception is an instance of handles it; with no such
    clause the exception goes on. *)
Fixpoint select_handler {A} (e : exn) (handlers : list (exn * M A)) : option (M A) :=
  match handlers with
  | [] => None
  | (cls, h) :: rest => if isinstance e cls then Some h else select_handler e rest
  end.

Definition try_except {A} (body : M A) (handlers : list (exn * M A)) : M A :=
  fun w =>
    match body w with
    | (Ok a, w') => (Ok a, w')
    | (Raise e, w') =>
        match select_handler e handlers with
        | Some h => h w'
        | None => (Raise e, w')
        end
    end.

(** ** Library calls *)

(** [print(s)] *)
Definition print (s : pystr) : M unit := emit (EvPrint s).

(** [input(prompt)]: shows the prompt and takes the next line of the
    standard input; at end of input it raises [EOFError]. *)
Definition input (prompt : pystr) : M pystr :=
  fun w =>
    let w1 := log (EvPrompt prompt) w in
    match stdin w1 with
    | [] => (Raise EOFError, w1)
    | line :: rest => (Ok line, mkWorld (host w1) rest (trace w1))
    end.

(** [import module] *)
Definition import_ (module : pystr) : M unit :=
  fun w =>
    let w1 := log (EvImport module) w in
    match import_module (host w1) module with
    | None => (Ok tt, w1)
    | Some e => (Raise e, w1)
    end.

(** [spacy.load(name)] *)
Definition spacy_load (name : pystr) : M Language :=
  fun w =>
    let w1 := log (EvSpacyLoad name) w in
    (spacy_load_result (host w1) name, w1).

(** Whether a path names something on the host, file or directory. *)
Definition path_exists (w : World) (path : pystr) : bool :=
  bool_decide (is_Some (fs (host w) !! path)).

(** [os.path.exists(path)] *)
Definition os_path_exists (path : pystr) : M bool :=
  fun w => (Ok (path_exists w path), w).

(** [with open(path, "r", encoding="utf-8") as file: text = file.read()] *)
Definition read_text (path : pystr) : M pystr :=
  fun w =>
    let w1 := log (EvOpenRead path) w in
    match fs (host w1) !! path with
    | None => (Raise FileNotFoundError, w1)
    | Some Dir => (Raise IsADirectoryError, w1)
    | Some (File false _ _) => (Raise PermissionError, w1)
    | Some (File true _ content) =>
        match utf8_decode content with
        | None => (Raise UnicodeDecodeError, w1)
        | Some s => (Ok (universal_newlines s), w1)
        end
    end.

(** Opening [path] with mode ["w"] and [encoding="utf-8"] and writing the
    text [s]: the target is truncated (or created) on opening, whatever it
    held; [s] is then encoded.  If encoding fails the file keeps what had
    reached it, [partial s].  On the platform modelled the line separator
    is the line feed, so text mode translates nothing on output. *)
Definition write_text (partial : pystr -> bytes) (path s : pystr) : M unit :=
  fun w =>
    let w1 := log (EvOpenWrite path) w in
    let h := host w1 in
    let store (r : bool) :=
      match utf8_encode s with
      | Some bs => (Ok tt, set_host (set_fs (<[path := File r true bs]> (fs h)) h) w1)
      | None =>
          (Raise UnicodeEncodeError,
           set_host (set_fs (<[path := File r true (partial s)]> (fs h)) h) w1)
      end in
    match fs h !! path with
    | Some Dir => (Raise IsADirectoryError, w1)
    | Some (File _ false _) => (Raise PermissionError, w1)
    | Some (File r true _) => store r
    | None => store true
    end.

(** [with open(path, "w", encoding="utf-8") as file: file.write(s)]: one
    call to [write], so nothing is written when encoding fails. *)
Definition open_write (path s : pystr) : M unit := write_text (fun _ => []) path s.

(** [uuid.uuid4().hex] *)
Definition uuid4_hex : M pystr :=
  fun w => (Ok (uuid_hex (host w) 0%nat), drawn w).

(** [nlp(text)] *)
Definition call_nlp (nlp : Language) (text : pystr) : M Doc.t :=
  emit (EvNlp text) ;;; lift_result (nlp text).

(** ** The token table *)

Inductive cell :=
  | CStr (s : pystr)
  | CBool (b : bool).

(** A [dict] with [str] keys and [list] values, in insertion order. *)
Abbreviation dict := (list (pystr * list cell)).

(** [d[k].append(v)]; [None] stands for [KeyError]. *)
Fixpoint dict_append (k : pystr) (v : cell) (d : dict) : option dict :=
  match d with
  | [] => None
  | (k', l) :: d' =>
      if str_eqb k k' then Some ((k', l ++ [v]) :: d')
      else cons (k', l) <$> dict_append k v d'
  end.

Definition K_Texto : pystr := py "Texto".
Definition K_Lema : pystr := py "Lema".
Definition K_POS : pystr := py "POS".
Definition K_Tag : pystr := py "Tag".
Definition K_Dep : pystr := py "Dep".
Definition K_Shape : pystr := py "Shape".
Definition K_Alfabetico : pystr := py "Alfab" ++ [E_ACUTE] ++ py "tico".
Definition K_Stopword : pystr := py "Stopword".

(** The initial value of [analyses]. *)
Definition analyses_init : dict :=
  [(K_Texto, []); (K_Lema, []); (K_POS, []); (K_Tag, []);
   (K_Dep, []); (K_Shape, []); (K_Alfabetico, []); (K_Stopword, [])].

(** The body of [for token in doc:]. *)
Definition collect_token (analyses : dict) (token : Token.t) : option dict :=
  d1 ← dict_append K_Texto (CStr (Token.text token)) analyses;
  d2 ← dict_append K_Lema (CStr (Token.lemma_ token)) d1;
  d3 ← dict_append K_POS (CStr (Token.pos_ token)) d2;
  d4 ← dict_append K_Tag (CStr (Token.tag_ token)) d3;
  d5 ← dict_append K_Dep (CStr (Token.dep_ token)) d4;
  d6 ← dict_append K_Shape (CStr (Token.shape_ token)) d5;
  d7 ← dict_append K_Alfabetico (CBool (Token.is_alpha token)) d6;
  dict_append K_Stopword (CBool (Token.is_stop token)) d7.

Fixpoint collect_tokens (analyses : dict) (tokens : list Token.t) : option dict :=
  match tokens with
  | [] => Some analyses
  | token :: rest =>
      match collect_token analyses token with
      | Some d => collect_tokens d rest
      | None => None
      end
  end.

Module DataFrame.
Record t := mk {
  columns : list pystr;
  rows : list (list cell)
}.
End DataFrame.

Definition cell_default : cell := CStr [].

(** The first [n] rows of a table given by its columns. *)
Fixpoint transpose (n : nat) (cols : list (list cell)) : list (list cell) :=
  match n with
  | O => []
  | S n' => map (hd cell_default) cols :: transpose n' (map (@tl cell) cols)
  end.

(** [pd.DataFrame(d)] for a dict of lists: the keys become the columns, in
    order; lists of unequal length are refused with [ValueError]. *)
Definition pd_DataFrame (d : dict) : result DataFrame.t :=
  match d with
  | [] => Ok (DataFrame.mk [] [])
  | (_, c0) :: _ =>
      if forallb (fun kc => Nat.eqb (length (snd kc)) (length c0)) d
      then Ok (DataFrame.mk (map fst d) (transpose (length c0) (map snd d)))
      else Raise ValueError
  end.

(** [str(b)] for a [bool]. *)
Definition py_bool (b : bool) : pystr :=
  if b then py "True" else py "False".

(** How [to_csv] prints a cell. *)
Definition cell_str (c : cell) : pystr :=
  match c with
  | CStr s => s
  | CBool b => py_bool b
  end.

(** *** The CSV writer ([csv.QUOTE_MINIMAL], as [to_csv] configures it) *)

Definition delimiter : N := COMMA.
Definition quotechar : N := DQUOTE.
(** [os.linesep] on the platform modelled. *)
Definition lineterminator : pystr := [LF].

(** The characters whose presence makes the writer quote a field. *)
Definition csv_special (c : N) : bool :=
  (c =? delimiter) || (c =? quotechar) || existsb (N.eqb c) lineterminator.

(** [doublequote=True]: a quote inside a field is written twice. *)
Fixpoint csv_escape (f : pystr) : pystr :=
  match f with
  | [] => []
  | c :: f' =>
      if c =? quotechar then quotechar :: quotechar :: csv_escape f'
      else c :: csv_escape f'
  end.

Definition csv_field (f : pystr) : pystr :=
  if existsb csv_special f then quotechar :: csv_escape f ++ [quotechar] else f.

(** One record; a record that is a single empty field is written as an
    empty quoted field, so that it is not taken for an empty line. *)
Definition csv_row (fields : list pystr) : pystr :=
  match fields with
  | [[]] => [quotechar; quotechar] ++ lineterminator
  | _ => join [delimiter] (map csv_field fields) ++ lineterminator
  end.

Definition csv_text (records : list (list pystr)) : pystr :=
  concat (map csv_row records).

(** The records [df.to_csv(..., index=False)] writes: the header, then
    one record per row, with no index column. *)
Definition csv_records (df : DataFrame.t) : list (list pystr) :=
  DataFrame.columns df :: map (map cell_str) (DataFrame.rows df).

(** *** Reading a CSV text back

    The rows and fields of a CSV file are what a reader of the format
    finds in it (RFC 4180 with the writer's dialect: comma, double quote,
    doubled quotes inside quoted fields, line feed after each record).
    The statements about rows and columns of [analise_tokens.csv] below
    are about the result of this reader on the text written. *)

Inductive reader_state :=
  | StartRecord | StartField | InField | InQuoted | QuoteInQuoted.

Fixpoint csv_read_from (st : reader_state) (fld : pystr) (row : list pystr)
    (s : pystr) : option (list (list pystr)) :=
  match s with
  | [] =>
      match st with
      | StartRecord => Some []
      | StartField => Some [rev ([] :: row)]
      | InField | QuoteInQuoted => Some [rev (rev fld :: row)]
      | InQuoted => None
      end
  | c :: s' =>
      match st with
      | StartRecord =>
          if c =? LF then cons [] <$> csv_read_from StartRecord [] [] s'
          else if c =? quotechar then csv_read_from InQuoted [] [] s'
          else if c =? delimiter then csv_read_from StartField [] [[]] s'
          else csv_read_from InField [c] [] s'
      | StartField =>
          if c =? LF then cons (rev ([] :: row)) <$> csv_read_from StartRecord [] [] s'
          else if c =? quotechar then csv_read_from InQuoted [] row s'
          else if c =? delimiter then csv_read_from StartField [] ([] :: row) s'
          else csv_read_from InField [c] row s'
      | InField =>
          if c =? LF then cons (rev (rev fld :: row)) <$> csv_read_from StartRecord [] [] s'
          else if c =? delimiter then csv_read_from StartField [] (rev fld :: row) s'
          else csv_read_from InField (c :: fld) row s'
      | InQuoted =>
          if c =? quotechar then csv_read_from QuoteInQuoted fld row s'
          else csv_read_from InQuoted (c :: fld) row s'
      | QuoteInQuoted =>
          if c =? quotechar then csv_read_from InQuoted (quotechar :: fld) row s'
          else if c =? delimiter then csv_read_from StartField [] (rev fld :: row) s'
          else if c =? LF then cons (rev (rev fld :: row)) <$> csv_read_from StartRecord [] [] s'
          else None
      end
  end.

Definition csv_read (s : pystr) : option (list (list pystr)) :=
  csv_read_from StartRecord [] [] s.

(** ** The script *)

Definition MODEL_NAME : pystr := py "pt_core_news_sm".

Definition TOKENS_CSV : pystr := py "analise_tokens.csv".
Definition NOUN_CHUNKS_TXT : pystr := py "noun_chunks.txt".
Definition ENTIDADES_TXT : pystr := py "entidades_nomeadas.txt".
Definition VISUALIZACAO_HTML : pystr := py "visualizacao_dependencias.html".

Definition output_files : list pystr :=
  [TOKENS_CSV; NOUN_CHUNKS_TXT; ENTIDADES_TXT; VISUALIZACAO_HTML].

Definition MSG_NOT_FOUND : pystr :=
  py "O arquivo especificado n" ++ [A_TILDE] ++ py "o foi encontrado.".

Definition MSG_DONE : pystr :=
  py "An" ++ [A_ACUTE] ++ py "lise conclu" ++ [I_ACUTE]
    ++ py "da! Os resultados foram salvos como arquivos.".

Definition MSG_INSTALLING : pystr :=
  py "Instalando depend" ++ [E_CIRC] ++ py "ncias...".

Definition MSG_DOWNLOADING : pystr := py "Baixando modelo 'pt_core_news_sm'...".

Definition PROMPT : pystr := py "Digite o caminho do arquivo de texto: ".

(** [f"{ent.text} ({ent.label_})"] *)
Definition entity_descriptor (ent : Span.t) : pystr :=
  Span.text ent ++ py " (" ++ Span.label_ ent ++ py ")".

(** [named_entities = []] followed by the loop that appends to it. *)
Definition collect_entities (ents : list Span.t) : list pystr :=
  fold_left (fun named_entities ent => named_entities ++ [entity_descriptor ent]) ents [].

Definition from_option {A} (e : exn) (o : option A) : M A :=
  match o with
  | Some a => ret a
  | None => raise e
  end.

(** How [check_call] ends for each way the command ends: a status other
    than 0 raises [CalledProcessError], a command that cannot be started
    raises what starting it raised. *)
Definition outcome_result (o : spawn_outcome) : result unit :=
  match o with
  | Exited 0%Z => Ok tt
  | Exited _ => Raise CalledProcessError
  | LaunchFailed e => Raise e
  end.

Section Script.

(** [sys.executable], the path of the running interpreter. *)
Variable sys_executable : pystr.

(** What running a command does to the host, and how the command ends. *)
Variable spawn : list pystr -> Host -> spawn_outcome * Host.

(** The markup that the dependency renderer of [displacy] builds for a
    document, given the identifier prefix it has drawn. *)
Variable displacy_render : pystr -> Doc.t -> result pystr.

(** What [to_csv] leaves in its target when a cell cannot be encoded. *)
Variable csv_partial : pystr -> bytes.

(** [subprocess.check_call(cmd)] *)
Definition check_call (cmd : list pystr) : M unit :=
  fun w =>
    let w1 := log (EvSpawn cmd) w in
    let '(outcome, h) := spawn cmd (host w1) in
    (outcome_result outcome, set_host h w1).

Definition PIP_INSTALL : list pystr :=
  [sys_executable; py "-m"; py "pip"; py "install"; py "spacy"; py "pandas"].

Definition SPACY_DOWNLOAD : list pystr :=
  [sys_executable; py "-m"; py "spacy"; py "download"; MODEL_NAME].

(** The body of the [try] of [ensure_dependencies]. *)
Definition probe_dependencies : M unit :=
  import_ (py "spacy") ;;;
  import_ (py "pandas") ;;;
  let* _ := spacy_load MODEL_NAME in
  ret tt.

Definition ensure_dependencies : M unit :=
  try_except
    probe_dependencies
    [ (ImportError,
        print MSG_INSTALLING ;;;
        check_call PIP_INSTALL ;;;
        check_call SPACY_DOWNLOAD);
      (OSError,
        print MSG_DOWNLOADING ;;;
        check_call SPACY_DOWNLOAD) ].

(** [df.to_csv(path, index=False, encoding="utf-8")] *)
Definition to_csv (df : DataFrame.t) (path : pystr) : M unit :=
  write_text csv_partial path (csv_text (csv_records df)).

(** [displacy.render(doc, style="dep", page=True)]: on each call the
    renderer draws a fresh identifier prefix, [uuid.uuid4().hex], and
    puts it in the markup, so that two renderings do not share their
    identifiers. *)
Definition displacy_render_dep (doc : Doc.t) : M pystr :=
  emit EvRender ;;;
  let* id_prefix := uuid4_hex in
  lift_result (displacy_render id_prefix doc).

Definition process_text_file (file_path : pystr) : M unit :=
  let* found := os_path_exists file_path in
  if negb found then
    print MSG_NOT_FOUND
  else
    let* nlp := spacy_load MODEL_NAME in
    let* text := read_text file_path in
    let* doc := call_nlp nlp text in
    let* analyses := from_option KeyError (collect_tokens analyses_init (Doc.tokens doc)) in
    let* df := lift_result (pd_DataFrame analyses) in
    to_csv df TOKENS_CSV ;;;
    let noun_chunks := map Span.text (Doc.noun_chunks doc) in
    open_write NOUN_CHUNKS_TXT (join [LF] noun_chunks) ;;;
    let named_entities := collect_entities (Doc.ents doc) in
    open_write ENTIDADES_TXT (join [LF] named_entities) ;;;
    let* html := displacy_render_dep doc in
    open_write VISUALIZACAO_HTML html ;;;
    print MSG_DONE.

(** The statements under [if __name__ == "__main__":]. *)
Definition main : M unit :=
  ensure_dependencies ;;;
  let* caminho_arquivo := input PROMPT in
  process_text_file caminho_arquivo.

(** The module's own imports, executed before anything else. *)
Definition module_imports : M unit :=
  import_ (py "spacy") ;;;
  import_ (py "spacy.displacy") ;;;
  import_ (py "os") ;;;
  import_ (py "pandas") ;;;
  import_ (py "subprocess") ;;;
  import_ (py "sys").

(** Running the file as a script. *)
Definition script : M unit := module_imports ;;; main.

(** The status the interpreter exits with: 0 when the script runs to its
    end, 1 when an exception reaches the top level. *)
Definition exit_status (r : result unit) : Z :=
  match r with
  | Ok _ => 0%Z
  | Raise _ => 1%Z
  end.

(** Everything the script does before it calls [process_text_file]; its
    result is the path typed in. *)
Definition startup : M pystr :=
  module_imports ;;;
  ensure_dependencies ;;;
  input PROMPT.

End Script.

(** ** Vocabulary of the properties *)

(** The eight cells of a token's row. *)
Definition token_row (token : Token.t) : list cell :=
  [CStr (Token.text token); CStr (Token.lemma_ token); CStr (Token.pos_ token);
   CStr (Token.tag_ token); CStr (Token.dep_ token); CStr (Token.shape_ token);
   CBool (Token.is_alpha token); CBool (Token.is_stop token)].

Definition header : list pystr :=
  [K_Texto; K_Lema; K_POS; K_Tag; K_Dep; K_Shape; K_Alfabetico; K_Stopword].

(** The value of [analyses] once the loop has gone over [tokens]. *)
Definition analyses_after (tokens : list Token.t) : dict :=
  [(K_Texto, map (fun t => CStr (Token.text t)) tokens);
   (K_Lema, map (fun t => CStr (Token.lemma_ t)) tokens);
   (K_POS, map (fun t => CStr (Token.pos_ t)) tokens);
   (K_Tag, map (fun t => CStr (Token.tag_ t)) tokens);
   (K_Dep, map (fun t => CStr (Token.dep_ t)) tokens);
   (K_Shape, map (fun t => CStr (Token.shape_ t)) tokens);
   (K_Alfabetico, map (fun t => CBool (Token.is_alpha t)) tokens);
   (K_Stopword, map (fun t => CBool (Token.is_stop t)) tokens)].

(** The two states in which a field may begin. *)
Definition field_start (st : reader_state) (row : list pystr) : Prop :=
  st = StartField \/ (st = StartRecord /\ row = []).

(** Total length of the items of a list. *)
Definition total_length (items : list pystr) : nat :=
  list_sum (map (@length N) items).

Definition LF_free (s : pystr) : Prop := LF ∉ s.

(** What a path holds, as bytes. *)
Definition file_content (w : World) (path : pystr) : option bytes :=
  match fs (host w) !! path with
  | Some (File _ _ content) => Some content
  | _ => None
  end.

(** The text that [read_text] gives for a path, when it gives one. *)
Definition input_text (w : World) (path : pystr) : option pystr :=
  match fs (host w) !! path with
  | Some (File true _ content) => universal_newlines <$> utf8_decode content
  | _ => None
  end.

(** Whether mode ["w"] can open a target: a directory and a file without
    write permission cannot be opened; a missing file is created. *)
Definition writable_target (o : option node) : bool :=
  match o with
  | Some Dir => false
  | Some (File _ writable _) => writable
  | None => true
  end.

(** The file a successful write leaves: the new content replaces the old
    one whole. *)
Definition written (o : option node) (bs : bytes) : node :=
  File (match o with Some (File r _ _) => r | _ => true end) true bs.

(** The world after [path] has been opened for writing and given [bs]. *)
Definition put (path : pystr) (bs : bytes) (w : World) : World :=
  set_host
    (set_fs (<[path := written (fs (host w) !! path) bs]> (fs (host w))) (host w))
    (log (EvOpenWrite path) w).

(** The texts handed to the four writers. *)
Definition token_fields (token : Token.t) : list pystr := map cell_str (token_row token).

Definition tokens_csv_text (doc : Doc.t) : pystr :=
  csv_text (header :: map token_fields (Doc.tokens doc)).

Definition noun_chunks_text (doc : Doc.t) : pystr :=
  join [LF] (map Span.text (Doc.noun_chunks doc)).

Definition entities_text (doc : Doc.t) : pystr :=
  join [LF] (map entity_descriptor (Doc.ents doc)).

(** The world a complete run leaves. *)
Definition after_export (file_path text : pystr) (b_csv b_chunks b_ents b_html : bytes)
    (w : World) : World :=
  log (EvPrint MSG_DONE)
    (put VISUALIZACAO_HTML b_html
       (drawn (log EvRender
          (put ENTIDADES_TXT b_ents
             (put NOUN_CHUNKS_TXT b_chunks
                (put TOKENS_CSV b_csv
                   (log (EvNlp text)
                      (log (EvOpenRead file_path)
                         (log (EvSpacyLoad MODEL_NAME) w))))))))).

(** The world when [displacy.render] has returned or raised: the three
    text files are written, the call is recorded and one identifier has
    been drawn. *)
Definition at_render (file_path text : pystr) (b_csv b_chunks b_ents : bytes)
    (w : World) : World :=
  drawn (log EvRender
    (put ENTIDADES_TXT b_ents
       (put NOUN_CHUNKS_TXT b_chunks
          (put TOKENS_CSV b_csv
             (log (EvNlp text)
                (log (EvOpenRead file_path)
                   (log (EvSpacyLoad MODEL_NAME) w))))))).


(** The header line of the token table as bytes: the accented letter
    takes the two bytes C3 A9. *)
Definition HEADER_LINE : bytes :=
  py "Texto,Lema,POS,Tag,Dep,Shape,Alfab" ++ [195; 169] ++ py "tico,Stopword".

Section Observations.

Variable displacy_render : pystr -> Doc.t -> result pystr.

(** Everything a complete run depends on and produces. *)
Record exported (file_path : pystr) (w w' : World) (text : pystr) (doc : Doc.t)
    (b_csv b_chunks b_ents b_html : bytes) : Prop := {
  exp_text : input_text w file_path = Some text;
  exp_doc : exists nlp, spacy_load_result (host w) MODEL_NAME = Ok nlp /\ nlp text = Ok doc;
  exp_csv : utf8_encode (tokens_csv_text doc) = Some b_csv;
  exp_chunks : utf8_encode (noun_chunks_text doc) = Some b_chunks;
  exp_ents : utf8_encode (entities_text doc) = Some b_ents;
  exp_html : exists html, displacy_render (uuid_hex (host w) 0%nat) doc = Ok html
                          /\ utf8_encode html = Some b_html;
  exp_writable : forall out, out ∈ output_files ->
                             writable_target (fs (host w) !! out) = true;
  exp_world : w' = after_export file_path text b_csv b_chunks b_ents b_html w
}.

End Observations.

(** Whether a text holds a line feed. *)
Definition has_LF (s : pystr) : bool := existsb (N.eqb LF) s.

(** What a successful write does to the host. *)
Definition host_put (path : pystr) (bs : bytes) (h : Host) : Host :=
  set_fs (<[path := written (fs h !! path) bs]> (fs h)) h.

(** Whether an effect is one that [process_text_file], called on
    [file_path], can have: it prints its two messages, loads its model,
    opens the path given for reading and files under the four output
    names for writing, calls the model and the renderer; it does not
    prompt, import or start a command. *)
Definition own_event (file_path : pystr) (ev : event) : bool :=
  match ev with
  | EvPrint s => bool_decide (s = MSG_NOT_FOUND) || bool_decide (s = MSG_DONE)
  | EvSpacyLoad name => bool_decide (name = MODEL_NAME)
  | EvOpenRead path => bool_decide (path = file_path)
  | EvOpenWrite path => bool_decide (path ∈ output_files)
  | EvNlp _ => true
  | EvRender => true
  | EvPrompt _ => false
  | EvImport _ => false
  | EvSpawn _ => false
  end.

(** From [w] to [w'] only such effects were added, and what is installed
    and what waits on the standard input are the same. *)
Definition confined (file_path : pystr) (w w' : World) : Prop :=
  (exists evs, trace w' = trace w ++ evs /\ forallb (own_event file_path) evs = true)
  /\ import_module (host w') = import_module (host w)
  /\ spacy_load_result (host w') = spacy_load_result (host w)
  /\ stdin w' = stdin w.

(** The effects of a complete run on an existing path, in the order of
    the statements of [process_text_file]. *)
Definition run_events (file_path text : pystr) : list event :=
  [EvSpacyLoad MODEL_NAME; EvOpenRead file_path; EvNlp text;
   EvOpenWrite TOKENS_CSV; EvOpenWrite NOUN_CHUNKS_TXT;
   EvOpenWrite ENTIDADES_TXT; EvRender;
   EvOpenWrite VISUALIZACAO_HTML; EvPrint MSG_DONE].

(** The modules the file imports at its top, in order. *)
Definition imported_modules : list pystr :=
  [py "spacy"; py "spacy.displacy"; py "os"; py "pandas"; py "subprocess"; py "sys"].

(** ** Sample hosts *)

Module Sample.

Definition tok (text lemma pos dep shape : string) (alpha stop : bool) : Token.t :=
  Token.mk (py text) (py lemma) (py pos) (py pos) (py dep) (py shape) alpha stop.

(** The document of the sentence [O gato correu.] *)
Definition doc_gato : Doc.t :=
  Doc.mk
    [tok "O" "o" "DET" "det" "X" true true;
     tok "gato" "gato" "NOUN" "nsubj" "xxxx" true false;
     tok "correu" "correr" "VERB" "ROOT" "xxxx" true false;
     tok "." "." "PUNCT" "punct" "." false false]
    [Span.mk (py "O gato") (py "NP")]
    [].

(** A document with two entities and two noun chunks. *)
Definition doc_maria : Doc.t :=
  Doc.mk
    [tok "Maria" "Maria" "PROPN" "nsubj" "Xxxxx" true false;
     tok "mora" "morar" "VERB" "ROOT" "xxxx" true false;
     tok "em" "em" "ADP" "case" "xx" true true;
     tok "Lisboa" "Lisboa" "PROPN" "obl" "Xxxxx" true false;
     tok "." "." "PUNCT" "punct" "." false false]
    [Span.mk (py "Maria") (py "NP"); Span.mk (py "Lisboa") (py "NP")]
    [Span.mk (py "Maria") (py "PER"); Span.mk (py "Lisboa") (py "LOC")].

(** A name broken over two lines of the input: the line feed is a token
    of its own, inside the entity and inside the noun chunk. *)
Definition RIO_BRANCO : pystr := py "Rio" ++ [LF] ++ py "Branco".

Definition doc_quebra : Doc.t :=
  Doc.mk
    [tok "Rio" "Rio" "PROPN" "nsubj" "Xxx" true false;
     Token.mk [LF] [LF] (py "SPACE") (py "_SP") (py "dep") [LF] false false;
     tok "Branco" "Branco" "PROPN" "flat:name" "Xxxxx" true false;
     tok "cresce" "crescer" "VERB" "ROOT" "xxxx" true false;
     tok "." "." "PUNCT" "punct" "." false false]
    [Span.mk RIO_BRANCO (py "NP")]
    [Span.mk RIO_BRANCO (py "LOC")].

Definition TEXT_GATO : pystr := py "O gato correu.".
Definition TEXT_MARIA : pystr := py "Maria mora em Lisboa.".
Definition TEXT_QUEBRA : pystr := RIO_BRANCO ++ py " cresce.".

Definition nlp : Language :=
  fun text =>
    if str_eqb text TEXT_GATO then Ok doc_gato
    else if str_eqb text TEXT_MARIA then Ok doc_maria
    else if str_eqb text TEXT_QUEBRA then Ok doc_quebra
    else Ok (Doc.mk [] [] []).

Definition files : gmap pystr node :=
  <[py "gato.txt" := File true true TEXT_GATO]>
  (<[py "maria.txt" := File true true TEXT_MARIA]>
  (<[py "quebra.txt" := File true true TEXT_QUEBRA]>
  (<[py "vazio.txt" := File true true []]>
  (<[py "latin1.txt" := File true true (py "caf" ++ [233])]>
  (<[py "pasta" := Dir]> ∅))))).

(** The identifiers the sample machines will draw. *)
Definition ids (n : nat) : pystr := py "5f0c9a" ++ [N.of_nat n + 48].

Definition machine : Host :=
  mkHost files (fun _ => None)
    (fun name => if str_eqb name MODEL_NAME then Ok nlp else Raise OSError)
    ids.

(** The same machine with an old token table lying around. *)
Definition machine_used : Host :=
  mkHost (<[TOKENS_CSV := File true true (py "old,table")]> files)
    (import_module machine) (spacy_load_result machine) ids.

(** A machine with the libraries but without the model. *)
Definition machine_bare : Host :=
  mkHost files (fun _ => None) (fun _ => Raise OSError) ids.

Definition world (path : string) : World := mkWorld machine [py path] [].
Definition world_used (path : string) : World := mkWorld machine_used [py path] [].

Definition executable : pystr := py "/usr/bin/python3".
Definition spawn : list pystr -> Host -> spawn_outcome * Host :=
  fun _ h => (Exited 0, h).
Definition render : pystr -> Doc.t -> result pystr :=
  fun _ _ => Ok (py "<html></html>").

(** A renderer that, like the real one, marks its output with the
    identifier drawn. *)
Definition render_marked : pystr -> Doc.t -> result pystr :=
  fun id_prefix _ => Ok (py "<svg id='" ++ id_prefix ++ py "-0'></svg>").
Definition partial : pystr -> bytes := fun _ => [].

(** Two runs in a row with the marking renderer. *)
Definition run_marked (path : string) : result unit * World :=
  process_text_file render_marked partial (py path) (world path).

Definition rerun_marked (path : string) : result unit * World :=
  process_text_file render_marked partial (py path) (snd (run_marked path)).

Definition run (path : string) : result unit * World :=
  process_text_file render partial (py path) (world path).

Definition run_used (path : string) : result unit * World :=
  process_text_file render partial (py path) (world_used path).

(** A renderer that fails. *)
Definition render_failing : pystr -> Doc.t -> result pystr :=
  fun _ _ => Raise ValueError.

(** A machine on which spaCy is not installed. *)
Definition machine_no_spacy : Host :=
  mkHost files
    (fun module => if str_eqb module (py "spacy") then Some ModuleNotFoundError else None)
    (fun _ => Raise OSError) ids.

(** A machine on which the text to analyse was saved under the name of
    one of the outputs. *)
Definition machine_alias : Host :=
  mkHost (<[NOUN_CHUNKS_TXT := File true true TEXT_MARIA]> files)
    (import_module machine) (spacy_load_result machine) ids.

(** A machine on which [noun_chunks.txt] is a directory. *)
Definition machine_blocked : Host :=
  mkHost (<[NOUN_CHUNKS_TXT := Dir]> files)
    (import_module machine) (spacy_load_result machine) ids.


End Sample.

(** * Properties *)

(** ** The token table as data *)

Lemma collect_token_after (done : list Token.t) (token : Token.t) :
  collect_token (analyses_after done) token = Some (analyses_after (done ++ [token])).
Proof.
  unfold analyses_after. rewrite !map_app. reflexivity.
Qed.

Lemma collect_tokens_after (done tokens : list Token.t) :
  collect_tokens (analyses_after done) tokens = Some (analyses_after (done ++ tokens)).
Proof.
  revert done. induction tokens as [|token rest IH]; intros done; cbn [collect_tokens].
  - by rewrite app_nil_r.
  - rewrite collect_token_after, IH. by rewrite <- app_assoc.
Qed.

(** The loop never raises [KeyError]: every key it appends to is among
    the eight the dict is created with. *)
Lemma collect_tokens_init (tokens : list Token.t) :
  collect_tokens analyses_init tokens = Some (analyses_after tokens).
Proof. apply (collect_tokens_after [] tokens). Qed.

Lemma transpose_analyses_after (tokens : list Token.t) :
  transpose (length tokens) (map snd (analyses_after tokens)) = map token_row tokens.
Proof.
  induction tokens as [|token rest IH]; [reflexivity|].
  simpl. f_equal. exact IH.
Qed.

(** The columns the loop builds always have one length, so the
    [DataFrame] constructor accepts them, and the frame has one row per
    token. *)
Lemma pd_DataFrame_analyses_after (tokens : list Token.t) :
  pd_DataFrame (analyses_after tokens)
  = Ok (DataFrame.mk header (map token_row tokens)).
Proof.
  unfold pd_DataFrame, analyses_after.
  cbn [forallb snd]. rewrite !length_map, Nat.eqb_refl. cbn [andb].
  f_equal. f_equal.
  apply (transpose_analyses_after tokens).
Qed.

(** ** The CSV writer and the reader agree *)

Lemma csv_special_false (c : N) :
  csv_special c = false ->
  (c =? LF) = false /\ (c =? quotechar) = false /\ (c =? delimiter) = false.
Proof.
  unfold csv_special, lineterminator. cbn [existsb].
  destruct (c =? delimiter), (c =? quotechar), (c =? LF); cbn; intros; auto; discriminate.
Qed.

Lemma quotechar_not_LF : (quotechar =? LF) = false.
Proof. reflexivity. Qed.

Lemma delimiter_not_LF : (delimiter =? LF) = false.
Proof. reflexivity. Qed.

Lemma delimiter_not_quotechar : (delimiter =? quotechar) = false.
Proof. reflexivity. Qed.

Lemma LF_not_quotechar : (LF =? quotechar) = false.
Proof. reflexivity. Qed.

(** Inside a quoted field the reader undoes the doubling of quotes, up
    to the closing quote. *)
Lemma read_quoted_body (f acc : pystr) (row : list pystr) (rest : pystr) :
  csv_read_from InQuoted acc row (csv_escape f ++ quotechar :: rest)
  = csv_read_from QuoteInQuoted (rev f ++ acc) row rest.
Proof.
  revert acc. induction f as [|c f IH]; intros acc.
  - cbn [csv_escape app csv_read_from rev]. by rewrite N.eqb_refl.
  - cbn [csv_escape]. destruct (N.eqb_spec c quotechar) as [->|Hc].
    + cbn [app csv_read_from]. rewrite !N.eqb_refl.
      rewrite IH. cbn [rev]. by rewrite <- app_assoc.
    + cbn [app csv_read_from]. apply N.eqb_neq in Hc. rewrite Hc.
      rewrite IH. cbn [rev]. by rewrite <- app_assoc.
Qed.

(** An unquoted field holds no special character and is read as it is. *)
Lemma read_plain_body (f acc : pystr) (row : list pystr) (rest : pystr) :
  existsb csv_special f = false ->
  csv_read_from InField acc row (f ++ rest)
  = csv_read_from InField (rev f ++ acc) row rest.
Proof.
  revert acc. induction f as [|c f IH]; intros acc Hf; [reflexivity|].
  cbn [existsb] in Hf. apply orb_false_iff in Hf as [Hc Hf].
  apply csv_special_false in Hc as (Hlf & _ & Hd).
  cbn [app csv_read_from]. rewrite Hlf, Hd, (IH _ Hf).
  cbn [rev]. by rewrite <- app_assoc.
Qed.

Lemma read_field_then_delimiter (st : reader_state) (row : list pystr) (f rest : pystr) :
  field_start st row ->
  csv_read_from st [] row (csv_field f ++ delimiter :: rest)
  = csv_read_from StartField [] (f :: row) rest.
Proof.
  intros Hst. unfold csv_field. destruct (existsb csv_special f) eqn:Hq.
  - assert (csv_read_from st [] row ((quotechar :: csv_escape f ++ [quotechar]) ++ delimiter :: rest)
            = csv_read_from InQuoted [] row (csv_escape f ++ quotechar :: delimiter :: rest)) as ->.
    { rewrite <- app_comm_cons, <- app_assoc. cbn [app].
      destruct Hst as [->|[-> ->]]; cbn [csv_read_from];
        by rewrite quotechar_not_LF, N.eqb_refl. }
    rewrite read_quoted_body. cbn [csv_read_from].
    rewrite delimiter_not_quotechar, N.eqb_refl, app_nil_r.
    by rewrite rev_involutive.
  - destruct f as [|c f].
    + cbn [app]. destruct Hst as [->|[-> ->]]; cbn [csv_read_from];
        by rewrite delimiter_not_LF, delimiter_not_quotechar, N.eqb_refl.
    + cbn [existsb] in Hq. apply orb_false_iff in Hq as [Hc Hf].
      apply csv_special_false in Hc as (Hlf & Hqc & Hd).
      assert (csv_read_from st [] row ((c :: f) ++ delimiter :: rest)
              = csv_read_from InField [c] row (f ++ delimiter :: rest)) as ->.
      { cbn [app]. destruct Hst as [->|[-> ->]]; cbn [csv_read_from];
          by rewrite Hlf, Hqc, Hd. }
      rewrite (read_plain_body _ _ _ _ Hf). cbn [csv_read_from].
      rewrite delimiter_not_LF, N.eqb_refl.
      change (rev f ++ [c]) with (rev (c :: f)). by rewrite rev_involutive.
Qed.

Lemma read_field_then_LF (st : reader_state) (row : list pystr) (f rest : pystr) :
  st = StartField \/ (st = StartRecord /\ row = [] /\ f <> []) ->
  csv_read_from st [] row (csv_field f ++ LF :: rest)
  = cons (rev (f :: row)) <$> csv_read_from StartRecord [] [] rest.
Proof.
  intros Hst. unfold csv_field. destruct (existsb csv_special f) eqn:Hq.
  - assert (csv_read_from st [] row ((quotechar :: csv_escape f ++ [quotechar]) ++ LF :: rest)
            = csv_read_from InQuoted [] row (csv_escape f ++ quotechar :: LF :: rest)) as ->.
    { rewrite <- app_comm_cons, <- app_assoc. cbn [app].
      destruct Hst as [->|(-> & -> & _)]; cbn [csv_read_from];
        by rewrite quotechar_not_LF, N.eqb_refl. }
    rewrite read_quoted_body. cbn [csv_read_from].
    rewrite LF_not_quotechar. change (LF =? delimiter) with false. cbn iota.
    rewrite N.eqb_refl, app_nil_r. by rewrite rev_involutive.
  - destruct f as [|c f].
    + destruct Hst as [->|(_ & _ & Hne)]; [|done].
      cbn [app csv_read_from]. by rewrite N.eqb_refl.
    + cbn [existsb] in Hq. apply orb_false_iff in Hq as [Hc Hf].
      apply csv_special_false in Hc as (Hlf & Hqc & Hd).
      assert (csv_read_from st [] row ((c :: f) ++ LF :: rest)
              = csv_read_from InField [c] row (f ++ LF :: rest)) as ->.
      { cbn [app]. destruct Hst as [->|(-> & -> & _)]; cbn [csv_read_from];
          by rewrite Hlf, Hqc, Hd. }
      rewrite (read_plain_body _ _ _ _ Hf). cbn [csv_read_from].
      rewrite N.eqb_refl.
      change (rev f ++ [c]) with (rev (c :: f)). by rewrite rev_involutive.
Qed.

Lemma join_cons2 (sep x y : pystr) (rest : list pystr) :
  join sep (x :: y :: rest) = x ++ sep ++ join sep (y :: rest).
Proof. reflexivity. Qed.

(** The fields of a record after its first. *)
Lemma read_fields (fields : list pystr) (row : list pystr) (rest : pystr) :
  fields <> [] ->
  csv_read_from StartField [] row (join [delimiter] (map csv_field fields) ++ LF :: rest)
  = cons (rev row ++ fields) <$> csv_read_from StartRecord [] [] rest.
Proof.
  revert row. induction fields as [|f [|g fields] IH]; intros row Hne; [done| |].
  - cbn [map join]. rewrite read_field_then_LF by (by left). reflexivity.
  - cbn [map]. rewrite join_cons2. rewrite <- !app_assoc. cbn [app].
    rewrite read_field_then_delimiter by (by left).
    change (csv_field g :: map csv_field fields) with (map csv_field (g :: fields)).
    rewrite IH by done. cbn [rev]. by rewrite <- app_assoc.
Qed.

(** One record written, one record read. *)
Lemma read_csv_row (fields : list pystr) (rest : pystr) :
  csv_read_from StartRecord [] [] (csv_row fields ++ rest)
  = cons fields <$> csv_read_from StartRecord [] [] rest.
Proof.
  destruct fields as [|f [|g fields]].
  - reflexivity.
  - destruct f as [|c f].
    + reflexivity.
    + change (csv_row [c :: f]) with (csv_field (c :: f) ++ [LF]).
      rewrite <- app_assoc. cbn [app].
      rewrite read_field_then_LF by (right; done). reflexivity.
  - assert (csv_row (f :: g :: fields)
            = csv_field f ++ delimiter :: join [delimiter] (map csv_field (g :: fields)) ++ [LF]) as ->.
    { unfold csv_row, lineterminator. destruct f; cbn [map]; rewrite join_cons2;
        by rewrite <- !app_assoc. }
    rewrite <- !app_assoc. rewrite <- app_comm_cons, <- app_assoc. cbn [app].
    rewrite read_field_then_delimiter by (right; done).
    rewrite read_fields by done. reflexivity.
Qed.

(** Reading what the writer wrote gives back the records, whatever the
    fields hold: separators, quotes and line feeds inside a field are
    protected by the quoting. *)
Lemma csv_read_csv_text (records : list (list pystr)) :
  csv_read (csv_text records) = Some records.
Proof.
  unfold csv_read, csv_text.
  induction records as [|r records IH]; [reflexivity|].
  cbn [map concat]. rewrite read_csv_row, IH. reflexivity.
Qed.

(** ** Texts: encoding, joining, lines *)

Lemma utf8_encode_app (a b : pystr) :
  utf8_encode (a ++ b)
  = match utf8_encode a, utf8_encode b with
    | Some x, Some y => Some (x ++ y)
    | _, _ => None
    end.
Proof.
  induction a as [|c a IH]; cbn [app utf8_encode].
  - by destruct (utf8_encode b).
  - rewrite IH. destruct (utf8_encode_char c), (utf8_encode a), (utf8_encode b);
      try reflexivity. by rewrite app_assoc.
Qed.

Lemma utf8_encode_app_Some (a b : pystr) (bs : bytes) :
  utf8_encode (a ++ b) = Some bs ->
  exists x y, utf8_encode a = Some x /\ utf8_encode b = Some y /\ bs = x ++ y.
Proof.
  rewrite utf8_encode_app.
  destruct (utf8_encode a) as [x|], (utf8_encode b) as [y|]; try discriminate.
  intros [= <-]. eauto.
Qed.

Lemma utf8_encode_nil_inv (s : pystr) : utf8_encode s = Some [] -> s = [].
Proof.
  destruct s as [|c s]; [done|]. cbn [utf8_encode].
  destruct (utf8_encode_char c) as [b|] eqn:Hc; [|done].
  destruct (utf8_encode s) as [bs|]; [|done].
  intros [= Hb]. apply app_eq_nil in Hb as [-> _].
  unfold utf8_encode_char in Hc.
  repeat (destruct (_ <? _)); try destruct (is_surrogate c); discriminate.
Qed.

(** The loop over [doc.ents] builds the list of descriptors, in order. *)
Lemma collect_entities_map (ents : list Span.t) :
  collect_entities ents = map entity_descriptor ents.
Proof.
  unfold collect_entities.
  enough (forall acc, fold_left (fun named_entities ent => named_entities ++ [entity_descriptor ent]) ents acc
                      = acc ++ map entity_descriptor ents) as H by apply (H []).
  induction ents as [|ent ents IH]; intros acc; cbn [fold_left map].
  - by rewrite app_nil_r.
  - rewrite IH. by rewrite <- app_assoc.
Qed.

Lemma join_snoc (sep : pystr) (items : list pystr) (x : pystr) :
  join sep (items ++ [x])
  = match items with
    | [] => x
    | _ => join sep items ++ sep ++ x
    end.
Proof.
  induction items as [|y [|z items] IH]; [reflexivity|reflexivity|].
  change ((y :: z :: items) ++ [x]) with (y :: (z :: items) ++ [x]).
  cbn [app]. rewrite !join_cons2. cbn [app] in IH. rewrite IH.
  by rewrite <- !app_assoc.
Qed.

(** A join puts a separator between consecutive items and nowhere else:
    [n] items take [n - 1] separators. *)
Lemma length_join (sep : pystr) (items : list pystr) :
  length (join sep items)
  = (total_length items + (length items - 1) * length sep)%nat.
Proof.
  unfold total_length.
  induction items as [|x [|y items] IH]; [reflexivity|cbn; lia|].
  rewrite join_cons2, !length_app, IH. cbn [map list_sum length foldr].
  rewrite !Nat.sub_succ, !Nat.sub_0_r. lia.
Qed.

Lemma splitlines_from_plain (x cur rest : pystr) :
  LF_free x ->
  splitlines_from cur (x ++ rest) = splitlines_from (rev x ++ cur) rest.
Proof.
  revert cur. induction x as [|c x IH]; intros cur Hx; [reflexivity|].
  unfold LF_free in Hx. apply not_elem_of_cons in Hx as [Hc Hx].
  cbn [app splitlines_from]. destruct (N.eqb_spec c LF) as [->|_]; [done|].
  rewrite IH by done. cbn [rev]. by rewrite <- app_assoc.
Qed.

(** The lines of a line-feed join are its items, provided no item holds
    a line feed and the last item is not empty. *)
Lemma splitlines_join (items : list pystr) :
  Forall LF_free items ->
  last items <> Some [] ->
  splitlines (join [LF] items) = items.
Proof.
  unfold splitlines.
  induction items as [|x [|y items] IH]; intros Hfree Hlast; [reflexivity| |].
  - cbn [join]. apply Forall_cons in Hfree as [Hx _].
    rewrite <- (app_nil_r x) at 1. rewrite splitlines_from_plain by done.
    rewrite app_nil_r. cbn [splitlines_from].
    destruct (rev x) eqn:Hr.
    + apply (f_equal (@rev N)) in Hr. rewrite rev_involutive in Hr.
      cbn in Hr. subst x. by destruct Hlast.
    + rewrite <- Hr. by rewrite rev_involutive.
  - rewrite join_cons2. apply Forall_cons in Hfree as [Hx Hrest].
    rewrite splitlines_from_plain by done. rewrite app_nil_r.
    cbn [app splitlines_from]. rewrite N.eqb_refl, rev_involutive.
    f_equal. apply IH; [done|]. exact Hlast.
Qed.

Lemma entity_descriptor_not_nil (ent : Span.t) : entity_descriptor ent <> [].
Proof.
  unfold entity_descriptor. intros H.
  apply app_eq_nil in H as [_ H]. discriminate.
Qed.

Lemma entity_descriptor_LF_free (ent : Span.t) :
  LF_free (Span.text ent) -> LF_free (Span.label_ ent) ->
  LF_free (entity_descriptor ent).
Proof.
  unfold LF_free, entity_descriptor. intros Ht Hl.
  rewrite !not_elem_of_app. repeat split; try done.
  - cbn. rewrite !not_elem_of_cons. repeat split; try done. apply not_elem_of_nil.
  - cbn. rewrite !not_elem_of_cons. repeat split; try done. apply not_elem_of_nil.
Qed.

Lemma last_map_descriptor_not_nil (ents : list Span.t) :
  last (map entity_descriptor ents) <> Some [].
Proof.
  induction ents as [|ent [|ent' ents] IH]; [done| |exact IH].
  cbn. intros [= H]. by apply entity_descriptor_not_nil in H.
Qed.

(** ** Decoding what was encoded

    The bit operations of the encoder and of the decoder are brought to
    quotients and remainders by powers of two, where linear arithmetic
    decides the range tests of the decoder. *)

Ltac div_lia := zify; Z.to_euclidean_division_equations; lia.

(** Bits below [2 ^ k] and a multiple of [2 ^ k] do not overlap. *)
Lemma lor_disjoint (a x k : N) : x < 2 ^ k -> N.lor (a * 2 ^ k) x = a * 2 ^ k + x.
Proof.
  intros Hx.
  assert (N.land (a * 2 ^ k) x = 0) as Hland.
  { apply N.bits_inj_0. intros n. rewrite N.land_spec.
    destruct (N.lt_ge_cases n k) as [Hn|Hn].
    - by rewrite N.mul_pow2_bits_low.
    - destruct (N.eq_dec x 0) as [->|Hx0]; [by rewrite N.bits_0, andb_false_r|].
      rewrite (N.bits_above_log2 x n), andb_false_r; [done|].
      apply N.lt_le_trans with k; [|done]. by apply N.log2_lt_pow2; [lia|]. }
  rewrite <- N.lxor_lor by done. symmetry. by apply N.add_nocarry_lxor.
Qed.

Lemma land_mask (a k : N) : N.land a (N.ones k) = a mod 2 ^ k.
Proof. apply N.land_ones. Qed.

Lemma encoded_two_bytes (c : N) :
  0x80 <= c -> c < 0x800 ->
  N.lor 0xC0 (N.shiftr c 6) = 192 + c / 64 /\ N.lor 0x80 (N.land c 0x3F) = 128 + c mod 64.
Proof.
  intros. split.
  - rewrite N.shiftr_div_pow2. change (2 ^ 6) with 64. change 0xC0 with (3 * 2 ^ 6).
    rewrite lor_disjoint; change (2 ^ 6) with 64; div_lia.
  - change 0x3F with (N.ones 6). rewrite land_mask. change (2 ^ 6) with 64.
    change 0x80 with (2 * 2 ^ 6).
    rewrite lor_disjoint; change (2 ^ 6) with 64; div_lia.
Qed.

Lemma encoded_three_bytes (c : N) :
  0x800 <= c -> c < 0x10000 ->
  N.lor 0xE0 (N.shiftr c 12) = 224 + c / 4096
  /\ N.lor 0x80 (N.land (N.shiftr c 6) 0x3F) = 128 + (c / 64) mod 64
  /\ N.lor 0x80 (N.land c 0x3F) = 128 + c mod 64.
Proof.
  intros. repeat split.
  - rewrite N.shiftr_div_pow2. change (2 ^ 12) with 4096. change 0xE0 with (14 * 2 ^ 4).
    rewrite lor_disjoint; change (2 ^ 4) with 16; div_lia.
  - rewrite N.shiftr_div_pow2. change 0x3F with (N.ones 6). rewrite land_mask.
    change (2 ^ 6) with 64. change 0x80 with (2 * 2 ^ 6).
    rewrite lor_disjoint; change (2 ^ 6) with 64; div_lia.
  - change 0x3F with (N.ones 6). rewrite land_mask. change (2 ^ 6) with 64.
    change 0x80 with (2 * 2 ^ 6).
    rewrite lor_disjoint; change (2 ^ 6) with 64; div_lia.
Qed.

Lemma encoded_four_bytes (c : N) :
  0x10000 <= c -> c < 0x110000 ->
  N.lor 0xF0 (N.shiftr c 18) = 240 + c / 262144
  /\ N.lor 0x80 (N.land (N.shiftr c 12) 0x3F) = 128 + (c / 4096) mod 64
  /\ N.lor 0x80 (N.land (N.shiftr c 6) 0x3F) = 128 + (c / 64) mod 64
  /\ N.lor 0x80 (N.land c 0x3F) = 128 + c mod 64.
Proof.
  intros. repeat split.
  - rewrite N.shiftr_div_pow2. change (2 ^ 18) with 262144. change 0xF0 with (30 * 2 ^ 3).
    rewrite lor_disjoint; change (2 ^ 3) with 8; div_lia.
  - rewrite N.shiftr_div_pow2. change 0x3F with (N.ones 6). rewrite land_mask.
    change (2 ^ 6) with 64. change (2 ^ 12) with 4096. change 0x80 with (2 * 2 ^ 6).
    rewrite lor_disjoint; change (2 ^ 6) with 64; div_lia.
  - rewrite N.shiftr_div_pow2. change 0x3F with (N.ones 6). rewrite land_mask.
    change (2 ^ 6) with 64. change 0x80 with (2 * 2 ^ 6).
    rewrite lor_disjoint; change (2 ^ 6) with 64; div_lia.
  - change 0x3F with (N.ones 6). rewrite land_mask. change (2 ^ 6) with 64.
    change 0x80 with (2 * 2 ^ 6).
    rewrite lor_disjoint; change (2 ^ 6) with 64; div_lia.
Qed.

Lemma cont_bits_mod (b : N) : cont_bits b = b mod 64.
Proof. unfold cont_bits. change 0x3F with (N.ones 6). by rewrite land_mask. Qed.

Lemma decoded_two_bytes (b0 b1 : N) :
  N.lor (N.shiftl (N.land b0 0x1F) 6) (cont_bits b1) = (b0 mod 32) * 64 + b1 mod 64.
Proof.
  rewrite cont_bits_mod. change 0x1F with (N.ones 5). rewrite land_mask.
  rewrite N.shiftl_mul_pow2. rewrite lor_disjoint; change (2 ^ 6) with 64;
    change (2 ^ 5) with 32; div_lia.
Qed.

Lemma decoded_three_bytes (b0 b1 b2 : N) :
  N.lor (N.shiftl (N.land b0 0x0F) 12) (N.lor (N.shiftl (cont_bits b1) 6) (cont_bits b2))
  = (b0 mod 16) * 4096 + (b1 mod 64) * 64 + b2 mod 64.
Proof.
  rewrite !cont_bits_mod. change 0x0F with (N.ones 4). rewrite land_mask.
  rewrite !N.shiftl_mul_pow2.
  rewrite (lor_disjoint (b1 mod 64)) by (change (2 ^ 6) with 64; div_lia).
  rewrite lor_disjoint; change (2 ^ 6) with 64; change (2 ^ 12) with 4096;
    change (2 ^ 4) with 16; div_lia.
Qed.

Lemma decoded_four_bytes (b0 b1 b2 b3 : N) :
  N.lor (N.shiftl (N.land b0 0x07) 18)
    (N.lor (N.shiftl (cont_bits b1) 12)
       (N.lor (N.shiftl (cont_bits b2) 6) (cont_bits b3)))
  = (b0 mod 8) * 262144 + (b1 mod 64) * 4096 + (b2 mod 64) * 64 + b3 mod 64.
Proof.
  rewrite !cont_bits_mod. change 0x07 with (N.ones 3). rewrite land_mask.
  rewrite !N.shiftl_mul_pow2.
  rewrite (lor_disjoint (b2 mod 64)) by (change (2 ^ 6) with 64; div_lia).
  rewrite (lor_disjoint (b1 mod 64)) by (change (2 ^ 6) with 64; change (2 ^ 12) with 4096; div_lia).
  rewrite lor_disjoint; change (2 ^ 6) with 64; change (2 ^ 12) with 4096;
    change (2 ^ 18) with 262144; change (2 ^ 3) with 8; div_lia.
Qed.

Ltac decide_tests :=
  repeat match goal with
         | |- context [?a <? ?b] =>
             first [ rewrite (proj2 (N.ltb_lt a b)) by div_lia
                   | rewrite (proj2 (N.ltb_ge a b)) by div_lia ]
         | |- context [?a <=? ?b] =>
             first [ rewrite (proj2 (N.leb_le a b)) by div_lia
                   | rewrite (proj2 (N.leb_gt a b)) by div_lia ]
         end.

(** Each code point that has an encoding is decoded from it. *)
Lemma utf8_decode_encode_char (c : N) (b rest : bytes) :
  utf8_encode_char c = Some b ->
  utf8_decode (b ++ rest) = cons c <$> utf8_decode rest.
Proof.
  unfold utf8_encode_char.
  destruct (N.ltb_spec c 0x80) as [H1|H1].
  { intros [= <-]. cbn [app utf8_decode]. by decide_tests. }
  destruct (N.ltb_spec c 0x800) as [H2|H2].
  { intros [= <-]. destruct (encoded_two_bytes c H1 H2) as [-> ->].
    cbn [app utf8_decode]. rewrite decoded_two_bytes. unfold is_cont. decide_tests. cbn [andb].
    f_equal. f_equal. div_lia. }
  destruct (N.ltb_spec c 0x10000) as [H3|H3].
  { destruct (is_surrogate c) eqn:Hs; [discriminate|].
    intros [= <-]. destruct (encoded_three_bytes c H2 H3) as (-> & -> & ->).
    cbn [app utf8_decode]. cbn zeta. rewrite decoded_three_bytes. unfold is_cont.
    replace ((224 + c / 4096) mod 16 * 4096 + (128 + (c / 64) mod 64) mod 64 * 64
             + (128 + c mod 64) mod 64) with c by div_lia.
    rewrite Hs. decide_tests. cbn [andb negb]. reflexivity. }
  destruct (N.ltb_spec c 0x110000) as [H4|H4]; [|discriminate].
  intros [= <-]. destruct (encoded_four_bytes c H3 H4) as (-> & -> & -> & ->).
  cbn [app utf8_decode]. cbn zeta. rewrite decoded_four_bytes. unfold is_cont.
  replace ((240 + c / 262144) mod 8 * 262144 + (128 + (c / 4096) mod 64) mod 64 * 4096
           + (128 + (c / 64) mod 64) mod 64 * 64 + (128 + c mod 64) mod 64) with c by div_lia.
  decide_tests. cbn [andb]. reflexivity.
Qed.

(** The strict decoder is a left inverse of the encoder. *)
Lemma utf8_decode_encode (s : pystr) (bs : bytes) :
  utf8_encode s = Some bs -> utf8_decode bs = Some s.
Proof.
  revert bs. induction s as [|c s IH]; intros bs; cbn [utf8_encode].
  - by intros [= <-].
  - destruct (utf8_encode_char c) as [b|] eqn:Hc; [|done].
    destruct (utf8_encode s) as [bs'|]; [|done].
    intros [= <-]. rewrite (utf8_decode_encode_char c b bs' Hc), (IH bs' eq_refl).
    reflexivity.
Qed.

(** ** Steps of a run *)

Lemma bind_Ok_inv {A B} (c : M A) (k : A -> M B) (w w' : World) (b : B) :
  bind c k w = (Ok b, w') ->
  exists a w1, c w = (Ok a, w1) /\ k a w1 = (Ok b, w').
Proof.
  unfold bind. destruct (c w) as [[a|e] w1]; [eauto|discriminate].
Qed.

Lemma bind_Ok {A B} (c : M A) (k : A -> M B) (w w1 : World) (a : A) :
  c w = (Ok a, w1) -> bind c k w = k a w1.
Proof. unfold bind. by intros ->. Qed.

Lemma bind_Raise {A B} (c : M A) (k : A -> M B) (w w1 : World) (e : exn) :
  c w = (Raise e, w1) -> bind c k w = (Raise e, w1).
Proof. unfold bind. by intros ->. Qed.

Lemma bind_ret {A B} (a : A) (k : A -> M B) (w : World) :
  bind (ret a) k w = k a w.
Proof. reflexivity. Qed.

Lemma bind_lift_Ok {A B} (a : A) (k : A -> M B) (w : World) :
  bind (lift_result (Ok a)) k w = k a w.
Proof. reflexivity. Qed.

Lemma bind_assoc {A B C} (c : M A) (k : A -> M B) (k' : B -> M C) (w : World) :
  bind (bind c k) k' w = bind c (fun a => bind (k a) k') w.
Proof.
  unfold bind. destruct (c w) as [[a|e] w1]; reflexivity.
Qed.

Lemma read_text_Ok (path text : pystr) (w : World) :
  input_text w path = Some text ->
  read_text path w = (Ok text, log (EvOpenRead path) w).
Proof.
  unfold input_text, read_text. cbn [host log].
  destruct (fs (host w) !! path) as [[[|] wr content|]|]; try discriminate.
  destruct (utf8_decode content); [|discriminate]. cbn. by intros [= <-].
Qed.

Lemma read_text_Ok_inv (path text : pystr) (w w' : World) :
  read_text path w = (Ok text, w') ->
  input_text w path = Some text /\ w' = log (EvOpenRead path) w.
Proof.
  unfold input_text, read_text. cbn [host log].
  destruct (fs (host w) !! path) as [[[|] wr content|]|]; try discriminate.
  destruct (utf8_decode content); [|discriminate]. cbn. by intros [= <- <-].
Qed.

Lemma write_text_Ok (partial : pystr -> bytes) (path s : pystr) (bs : bytes) (w : World) :
  writable_target (fs (host w) !! path) = true ->
  utf8_encode s = Some bs ->
  write_text partial path s w = (Ok tt, put path bs w).
Proof.
  unfold write_text, put, written, writable_target. cbn [host log].
  intros Hw ->.
  destruct (fs (host w) !! path) as [[r [|] content|]|]; try discriminate; reflexivity.
Qed.

Lemma write_text_Ok_inv (partial : pystr -> bytes) (path s : pystr) (w w' : World) :
  write_text partial path s w = (Ok tt, w') ->
  exists bs, writable_target (fs (host w) !! path) = true
             /\ utf8_encode s = Some bs /\ w' = put path bs w.
Proof.
  unfold write_text, put, written, writable_target. cbn [host log].
  destruct (fs (host w) !! path) as [[r [|] content|]|]; try discriminate;
    destruct (utf8_encode s) as [bs|]; try discriminate;
    intros [= <-]; eauto.
Qed.

(** A text that cannot be encoded leaves the target opened, hence
    emptied, with what the writer had flushed. *)
Lemma write_text_unencodable (partial : pystr -> bytes) (path s : pystr) (w : World) :
  writable_target (fs (host w) !! path) = true ->
  utf8_encode s = None ->
  write_text partial path s w = (Raise UnicodeEncodeError, put path (partial s) w).
Proof.
  unfold write_text, put, written, writable_target. cbn [host log].
  intros Hw ->.
  destruct (fs (host w) !! path) as [[r [|] content|]|]; try discriminate; reflexivity.
Qed.

Lemma file_content_put (path : pystr) (bs : bytes) (w : World) :
  file_content (put path bs w) path = Some bs.
Proof.
  unfold file_content, put, written. cbn [host set_host fs set_fs].
  by rewrite lookup_insert_eq.
Qed.

Lemma fs_put_ne (path path' : pystr) (bs : bytes) (w : World) :
  path <> path' ->
  fs (host (put path bs w)) !! path' = fs (host w) !! path'.
Proof.
  intros Hne. unfold put. cbn [host set_host fs set_fs].
  by rewrite lookup_insert_ne.
Qed.

Lemma fs_put_eq (path : pystr) (bs : bytes) (w : World) :
  fs (host (put path bs w)) !! path = Some (written (fs (host w) !! path) bs).
Proof.
  unfold put. cbn [host set_host fs set_fs]. by rewrite lookup_insert_eq.
Qed.

(** Writing again what a file already holds changes nothing on the host. *)
Lemma host_put_same (path : pystr) (bs : bytes) (w : World) (r : bool) :
  fs (host w) !! path = Some (File r true bs) ->
  host (put path bs w) = host w.
Proof.
  intros H. unfold put. cbn [host set_host log]. rewrite H. cbn [written].
  rewrite insert_id by done. by destruct (host w).
Qed.

Lemma host_log (ev : event) (w : World) : host (log ev w) = host w.
Proof. reflexivity. Qed.

Lemma fs_drawn (w : World) : fs (host (drawn w)) = fs (host w).
Proof. reflexivity. Qed.

Lemma uuid_hex_put (path : pystr) (bs : bytes) (w : World) :
  uuid_hex (host (put path bs w)) = uuid_hex (host w).
Proof. reflexivity. Qed.

Lemma trace_put (path : pystr) (bs : bytes) (w : World) :
  trace (put path bs w) = trace w ++ [EvOpenWrite path].
Proof. reflexivity. Qed.

Lemma output_files_distinct : NoDup output_files.
Proof.
  unfold output_files. repeat constructor;
    rewrite ?elem_of_cons; rewrite ?elem_of_nil; intros H;
    repeat destruct H as [H|H]; try discriminate H; done.
Qed.

(** ** A run of [process_text_file] that reaches the export stage *)

Section Runs.

Variable sys_executable : pystr.
Variable spawn : list pystr -> Host -> spawn_outcome * Host.
Variable displacy_render : pystr -> Doc.t -> result pystr.
Variable csv_partial : pystr -> bytes.

Lemma frame_csv_records (doc : Doc.t) :
  csv_text (csv_records (DataFrame.mk header (map token_row (Doc.tokens doc))))
  = tokens_csv_text doc.
Proof.
  unfold csv_records, tokens_csv_text, token_fields. cbn [DataFrame.columns DataFrame.rows].
  by rewrite map_map.
Qed.

Lemma os_path_exists_true (w : World) (path : pystr) :
  path_exists w path = true ->
  os_path_exists path w = (Ok true, w).
Proof. intros H. unfold os_path_exists. by rewrite H. Qed.

Lemma path_exists_false (w : World) (path : pystr) :
  path_exists w path = false <-> fs (host w) !! path = None.
Proof.
  unfold path_exists. rewrite bool_decide_eq_false.
  rewrite <- eq_None_not_Some. done.
Qed.

Lemma input_text_exists (w : World) (path text : pystr) :
  input_text w path = Some text -> path_exists w path = true.
Proof.
  unfold input_text, path_exists. intros H. apply bool_decide_eq_true_2.
  destruct (fs (host w) !! path); [eauto|discriminate].
Qed.

(** Rendering records the call, draws an identifier and gives what the
    renderer builds with it. *)
Lemma displacy_render_dep_eq (doc : Doc.t) (w : World) :
  displacy_render_dep displacy_render doc w
  = (displacy_render (uuid_hex (host w) 0%nat) doc, drawn (log EvRender w)).
Proof. reflexivity. Qed.

(** A run on an existing path that returns normally has gone through
    every stage. *)
Lemma process_text_file_Ok_inv (file_path : pystr) (w w' : World) :
  path_exists w file_path = true ->
  process_text_file displacy_render csv_partial file_path w = (Ok tt, w') ->
  exists text doc b_csv b_chunks b_ents b_html,
    exported displacy_render file_path w w' text doc b_csv b_chunks b_ents b_html.
Proof.
  intros Hex Hrun. unfold process_text_file in Hrun.
  rewrite (bind_Ok _ _ _ _ _ (os_path_exists_true _ _ Hex)) in Hrun. cbn [negb] in Hrun.
  apply bind_Ok_inv in Hrun as (nlp & w1 & Hload & Hrun).
  injection Hload as Hload <-.
  apply bind_Ok_inv in Hrun as (text & w2 & Hread & Hrun).
  apply read_text_Ok_inv in Hread as [Htext ->].
  apply bind_Ok_inv in Hrun as (doc & w3 & Hnlp & Hrun).
  apply bind_Ok_inv in Hnlp as ([] & w3' & [= <-] & Hnlp).
  unfold lift_result in Hnlp. injection Hnlp as Hnlp <-.
  rewrite collect_tokens_init in Hrun. cbn [from_option] in Hrun.
  apply bind_Ok_inv in Hrun as (analyses & w4 & [= <- <-] & Hrun).
  rewrite pd_DataFrame_analyses_after in Hrun.
  apply bind_Ok_inv in Hrun as (df & w5 & [= <- <-] & Hrun).
  apply bind_Ok_inv in Hrun as ([] & w6 & Hcsv & Hrun).
  unfold to_csv in Hcsv. rewrite frame_csv_records in Hcsv.
  apply write_text_Ok_inv in Hcsv as (b_csv & Hw1 & He1 & ->).
  apply bind_Ok_inv in Hrun as ([] & w7 & Hnc & Hrun).
  apply write_text_Ok_inv in Hnc as (b_chunks & Hw2 & He2 & ->).
  apply bind_Ok_inv in Hrun as ([] & w8 & Hent & Hrun).
  rewrite collect_entities_map in Hent.
  apply write_text_Ok_inv in Hent as (b_ents & Hw3 & He3 & ->).
  apply bind_Ok_inv in Hrun as (html & w9 & Hrender & Hrun).
  rewrite displacy_render_dep_eq in Hrender. injection Hrender as Hrender <-.
  change (displacy_render (uuid_hex (host w) 0%nat) doc = Ok html) in Hrender.
  apply bind_Ok_inv in Hrun as ([] & w10 & Hhtml & Hrun).
  apply write_text_Ok_inv in Hhtml as (b_html & Hw4 & He4 & ->).
  injection Hrun as <-.
  rewrite fs_drawn, ?host_log, !fs_put_ne in Hw4 by discriminate.
  rewrite !fs_put_ne in Hw3 by discriminate.
  rewrite !fs_put_ne in Hw2 by discriminate.
  exists text, doc, b_csv, b_chunks, b_ents, b_html.
  split; try done; eauto.
  intros out. unfold output_files.
  rewrite !elem_of_cons, elem_of_nil. intros [->|[->|[->|[->|[]]]]]; assumption.
Qed.

(** Conversely, when every stage can go through, the run returns
    normally. *)
Lemma process_text_file_Ok (file_path : pystr) (w w' : World) (text : pystr)
    (doc : Doc.t) (b_csv b_chunks b_ents b_html : bytes) :
  exported displacy_render file_path w w' text doc b_csv b_chunks b_ents b_html ->
  process_text_file displacy_render csv_partial file_path w = (Ok tt, w').
Proof.
  intros [Htext (nlp & Hload & Hnlp) He1 He2 He3 (html & Hrender & He4) Hw ->].
  unfold process_text_file.
  rewrite (bind_Ok _ _ _ _ _ (os_path_exists_true _ _ (input_text_exists _ _ _ Htext))).
  cbn [negb].
  rewrite (bind_Ok _ _ w (log (EvSpacyLoad MODEL_NAME) w) nlp)
    by (unfold spacy_load; cbn [host log]; by rewrite Hload).
  rewrite (bind_Ok _ _ _ _ _
             (read_text_Ok file_path text (log (EvSpacyLoad MODEL_NAME) w) Htext)).
  rewrite (bind_Ok _ _ _ (log (EvNlp text) _) doc)
    by (unfold call_nlp, bind, emit, lift_result; by rewrite Hnlp).
  rewrite collect_tokens_init. cbn [from_option].
  rewrite bind_ret, pd_DataFrame_analyses_after, bind_lift_Ok.
  unfold to_csv. rewrite frame_csv_records.
  erewrite bind_Ok.
  2:{ apply write_text_Ok; [|exact He1].
      rewrite ?host_log. apply Hw. set_solver. }
  erewrite bind_Ok.
  2:{ apply write_text_Ok; [|exact He2].
      rewrite ?host_log, !fs_put_ne by discriminate. apply Hw. set_solver. }
  rewrite collect_entities_map.
  erewrite bind_Ok.
  2:{ apply write_text_Ok; [|exact He3].
      rewrite ?host_log, !fs_put_ne by discriminate. apply Hw. set_solver. }
  rewrite (bind_Ok _ _ _ (drawn (log EvRender _)) html)
    by (rewrite displacy_render_dep_eq; f_equal; exact Hrender).
  erewrite bind_Ok.
  2:{ apply write_text_Ok; [|exact He4].
      rewrite fs_drawn, ?host_log, !fs_put_ne by discriminate. apply Hw. set_solver. }
  reflexivity.
Qed.

(** A run that can write its three text files reaches the renderer, and
    what the renderer gives decides the rest. *)
Lemma process_text_file_at_render (file_path : pystr) (w : World) (text : pystr)
    (nlp : Language) (doc : Doc.t) (b_csv b_chunks b_ents : bytes) :
  input_text w file_path = Some text ->
  spacy_load_result (host w) MODEL_NAME = Ok nlp ->
  nlp text = Ok doc ->
  utf8_encode (tokens_csv_text doc) = Some b_csv ->
  utf8_encode (noun_chunks_text doc) = Some b_chunks ->
  utf8_encode (entities_text doc) = Some b_ents ->
  (forall out, out ∈ [TOKENS_CSV; NOUN_CHUNKS_TXT; ENTIDADES_TXT] ->
               writable_target (fs (host w) !! out) = true) ->
  process_text_file displacy_render csv_partial file_path w
  = match displacy_render (uuid_hex (host w) 0%nat) doc with
    | Ok html =>
        (open_write VISUALIZACAO_HTML html ;;; print MSG_DONE)
          (at_render file_path text b_csv b_chunks b_ents w)
    | Raise e => (Raise e, at_render file_path text b_csv b_chunks b_ents w)
    end.
Proof.
  intros Htext Hload Hnlp He1 He2 He3 Hw.
  unfold process_text_file.
  rewrite (bind_Ok _ _ _ _ _ (os_path_exists_true _ _ (input_text_exists _ _ _ Htext))).
  cbn [negb].
  rewrite (bind_Ok _ _ w (log (EvSpacyLoad MODEL_NAME) w) nlp)
    by (unfold spacy_load; cbn [host log]; by rewrite Hload).
  rewrite (bind_Ok _ _ _ _ _
             (read_text_Ok file_path text (log (EvSpacyLoad MODEL_NAME) w) Htext)).
  rewrite (bind_Ok _ _ _ (log (EvNlp text) _) doc)
    by (unfold call_nlp, bind, emit, lift_result; by rewrite Hnlp).
  rewrite collect_tokens_init. cbn [from_option].
  rewrite bind_ret, pd_DataFrame_analyses_after, bind_lift_Ok.
  unfold to_csv. rewrite frame_csv_records.
  erewrite bind_Ok.
  2:{ apply write_text_Ok; [|exact He1].
      rewrite ?host_log. apply Hw. set_solver. }
  erewrite bind_Ok.
  2:{ apply write_text_Ok; [|exact He2].
      rewrite ?host_log, !fs_put_ne by discriminate. apply Hw. set_solver. }
  rewrite collect_entities_map.
  erewrite bind_Ok.
  2:{ apply write_text_Ok; [|exact He3].
      rewrite ?host_log, !fs_put_ne by discriminate. apply Hw. set_solver. }
  unfold bind at 1. rewrite displacy_render_dep_eq.
  change (uuid_hex (host (put ENTIDADES_TXT b_ents
            (put NOUN_CHUNKS_TXT b_chunks
               (put TOKENS_CSV b_csv
                  (log (EvNlp text)
                     (log (EvOpenRead file_path)
                        (log (EvSpacyLoad MODEL_NAME) w))))))) 0%nat)
    with (uuid_hex (host w) 0%nat).
  by destruct (displacy_render (uuid_hex (host w) 0%nat) doc).
Qed.

End Runs.


(** ** What a complete run leaves in the four files *)

Lemma file_content_log (ev : event) (w : World) (path : pystr) :
  file_content (log ev w) path = file_content w path.
Proof. reflexivity. Qed.

Lemma file_content_drawn (w : World) (path : pystr) :
  file_content (drawn w) path = file_content w path.
Proof. reflexivity. Qed.

Lemma file_content_put_ne (path path' : pystr) (bs : bytes) (w : World) :
  path <> path' ->
  file_content (put path bs w) path' = file_content w path'.
Proof. intros Hne. unfold file_content. by rewrite fs_put_ne. Qed.

Lemma after_export_tokens_csv (p text : pystr) (b1 b2 b3 b4 : bytes) (w : World) :
  file_content (after_export p text b1 b2 b3 b4 w) TOKENS_CSV = Some b1.
Proof.
  unfold after_export. rewrite file_content_log.
  rewrite file_content_put_ne, file_content_drawn, file_content_log by discriminate.
  rewrite !file_content_put_ne by discriminate.
  apply file_content_put.
Qed.

Lemma after_export_noun_chunks (p text : pystr) (b1 b2 b3 b4 : bytes) (w : World) :
  file_content (after_export p text b1 b2 b3 b4 w) NOUN_CHUNKS_TXT = Some b2.
Proof.
  unfold after_export. rewrite file_content_log.
  rewrite file_content_put_ne, file_content_drawn, file_content_log by discriminate.
  rewrite file_content_put_ne by discriminate.
  apply file_content_put.
Qed.

Lemma after_export_entidades (p text : pystr) (b1 b2 b3 b4 : bytes) (w : World) :
  file_content (after_export p text b1 b2 b3 b4 w) ENTIDADES_TXT = Some b3.
Proof.
  unfold after_export. rewrite file_content_log.
  rewrite file_content_put_ne, file_content_drawn, file_content_log by discriminate.
  apply file_content_put.
Qed.

Lemma after_export_html (p text : pystr) (b1 b2 b3 b4 : bytes) (w : World) :
  file_content (after_export p text b1 b2 b3 b4 w) VISUALIZACAO_HTML = Some b4.
Proof.
  unfold after_export. rewrite file_content_log. apply file_content_put.
Qed.

(** A path that is none of the four targets keeps what it held. *)
Lemma after_export_other (p text : pystr) (b1 b2 b3 b4 : bytes) (w : World) (path : pystr) :
  path ∉ output_files ->
  fs (host (after_export p text b1 b2 b3 b4 w)) !! path = fs (host w) !! path.
Proof.
  unfold output_files. rewrite !not_elem_of_cons. intros (H1 & H2 & H3 & H4 & _).
  unfold after_export. rewrite !host_log.
  rewrite fs_put_ne, fs_drawn, host_log by done.
  by rewrite !fs_put_ne, !host_log by done.
Qed.

Lemma after_export_trace (p text : pystr) (b1 b2 b3 b4 : bytes) (w : World) :
  trace (after_export p text b1 b2 b3 b4 w)
  = trace w ++ [EvSpacyLoad MODEL_NAME; EvOpenRead p; EvNlp text;
                EvOpenWrite TOKENS_CSV; EvOpenWrite NOUN_CHUNKS_TXT;
                EvOpenWrite ENTIDADES_TXT; EvRender;
                EvOpenWrite VISUALIZACAO_HTML; EvPrint MSG_DONE].
Proof.
  unfold after_export, put, drawn, log, set_host. cbn [trace host stdin].
  by rewrite <- !app_assoc.
Qed.

Lemma spacy_load_result_put (path : pystr) (bs : bytes) (w : World) :
  spacy_load_result (host (put path bs w)) = spacy_load_result (host w).
Proof. reflexivity. Qed.

Lemma after_export_model (p text : pystr) (b1 b2 b3 b4 : bytes) (w : World) :
  spacy_load_result (host (after_export p text b1 b2 b3 b4 w))
  = spacy_load_result (host w).
Proof. reflexivity. Qed.

Section RunFacts.

Variable sys_executable : pystr.
Variable spawn : list pystr -> Host -> spawn_outcome * Host.
Variable displacy_render : pystr -> Doc.t -> result pystr.
Variable csv_partial : pystr -> bytes.

(** A complete run, named by the text it read and the document the
    model gave for it. *)
Lemma run_exported (file_path : pystr) (w w' : World) (text : pystr)
    (nlp : Language) (doc : Doc.t) :
  input_text w file_path = Some text ->
  spacy_load_result (host w) MODEL_NAME = Ok nlp ->
  nlp text = Ok doc ->
  process_text_file displacy_render csv_partial file_path w = (Ok tt, w') ->
  exists b_csv b_chunks b_ents b_html,
    exported displacy_render file_path w w' text doc b_csv b_chunks b_ents b_html.
Proof.
  intros Hin Hload Hdoc Hrun.
  destruct (process_text_file_Ok_inv displacy_render csv_partial file_path w w'
              (input_text_exists _ _ _ Hin) Hrun)
    as (text' & doc' & b1 & b2 & b3 & b4 & Hexp).
  destruct Hexp as [Htext (nlp' & Hload' & Hdoc') He1 He2 He3 He4 Hw Hw'].
  assert (text' = text) as -> by congruence.
  assert (nlp' = nlp) as -> by congruence.
  assert (doc' = doc) as -> by congruence.
  exists b1, b2, b3, b4. by split; eauto.
Qed.

(** The script is its start-up followed by [process_text_file] on the
    path typed in. *)
Lemma script_startup (w : World) :
  script sys_executable spawn displacy_render csv_partial w
  = bind (startup sys_executable spawn)
      (process_text_file displacy_render csv_partial) w.
Proof.
  unfold script, startup, main. rewrite !bind_assoc.
  unfold bind. destruct (module_imports w) as [[[]|e] w1]; [|reflexivity].
  destruct (ensure_dependencies sys_executable spawn w1) as [[[]|e] w2]; reflexivity.
Qed.

End RunFacts.

(** ** Lines of the bytes written *)

Lemma splitlines_first_line (x rest : pystr) :
  LF_free x -> splitlines (x ++ LF :: rest) = x :: splitlines rest.
Proof.
  intros Hx. unfold splitlines. rewrite splitlines_from_plain by done.
  cbn [splitlines_from]. by rewrite N.eqb_refl, app_nil_r, rev_involutive.
Qed.

Lemma HEADER_LINE_LF_free : LF_free HEADER_LINE.
Proof.
  unfold LF_free.
  assert (bool_decide (LF ∉ HEADER_LINE) = true) as H by (vm_compute; reflexivity).
  by apply bool_decide_eq_true in H.
Qed.

Lemma utf8_encode_header_row :
  utf8_encode (csv_row header) = Some (HEADER_LINE ++ [LF]).
Proof. vm_compute. reflexivity. Qed.

Lemma token_fields_length (token : Token.t) : length (token_fields token) = 8%nat.
Proof. reflexivity. Qed.

(** ** Encoding keeps the line structure *)

Lemma has_LF_false (s : pystr) : has_LF s = false <-> LF_free s.
Proof.
  unfold has_LF, LF_free. induction s as [|c s IH]; cbn [existsb].
  - split; [intros _; apply not_elem_of_nil|done].
  - rewrite orb_false_iff, IH, not_elem_of_cons.
    rewrite N.eqb_neq. done.
Qed.

Lemma lor_high_not_LF (hi y : N) : N.testbit hi 7 = true -> N.lor hi y <> LF.
Proof.
  intros Hhi E. apply (f_equal (fun n => N.testbit n 7)) in E.
  rewrite N.lor_spec, Hhi in E. discriminate E.
Qed.

(** The line feed is the only code point whose encoding holds the byte
    10. *)
Lemma utf8_encode_char_LF_free (c : N) (b : bytes) :
  utf8_encode_char c = Some b -> c <> LF -> LF_free b.
Proof.
  unfold utf8_encode_char, LF_free. intros Hb Hc.
  repeat match type of Hb with
         | (if ?t then _ else _) = _ => destruct t
         end; try discriminate; injection Hb as <-;
    rewrite ?not_elem_of_cons; repeat split;
      try apply not_elem_of_nil; try done;
      intros E; symmetry in E; revert E; by apply lor_high_not_LF.
Qed.

Lemma utf8_encode_LF_free (s : pystr) (bs : bytes) :
  utf8_encode s = Some bs -> LF_free s -> LF_free bs.
Proof.
  revert bs. induction s as [|c s IH]; intros bs; cbn [utf8_encode].
  - intros [= <-] _. apply not_elem_of_nil.
  - destruct (utf8_encode_char c) as [b|] eqn:Hc; [|done].
    destruct (utf8_encode s) as [bs'|]; [|done].
    intros [= <-] Hfree. unfold LF_free in *.
    apply not_elem_of_cons in Hfree as [Hne Hfree].
    rewrite not_elem_of_app. split; [|by apply IH].
    apply (utf8_encode_char_LF_free c b Hc). done.
Qed.

(** Encoding a join: every item is encoded, and the bytes are the join
    of the encoded items. *)
Lemma utf8_encode_join (items : list pystr) (bs : bytes) :
  utf8_encode (join [LF] items) = Some bs ->
  exists lines, mapM utf8_encode items = Some lines /\ bs = join [LF] lines.
Proof.
  revert bs. induction items as [|x [|y items] IH]; intros bs.
  - intros [= <-]. by exists [].
  - cbn [join]. intros Hx. exists [bs]. split; [|done].
    cbn. by rewrite Hx.
  - rewrite join_cons2. intros H.
    apply utf8_encode_app_Some in H as (bx & brest & Hx & H & ->).
    apply utf8_encode_app_Some in H as (bsep & brest' & Hsep & Hrest & ->).
    injection Hsep as <-.
    destruct (IH _ Hrest) as (lines & Hlines & ->).
    exists (bx :: lines). split.
    + change (mapM utf8_encode (x :: y :: items))
        with (b ← utf8_encode x; k ← mapM utf8_encode (y :: items); mret (b :: k)).
      rewrite Hx, Hlines. reflexivity.
    + destruct lines as [|l lines]; [|reflexivity].
      apply length_mapM in Hlines. discriminate Hlines.
Qed.

Lemma mapM_utf8_encode_LF_free (items : list pystr) (lines : list bytes) :
  mapM utf8_encode items = Some lines ->
  Forall LF_free items -> Forall LF_free lines.
Proof.
  intros H. apply mapM_Some_1 in H.
  induction H as [|x b items lines Hx _ IH]; intros Hfree; [constructor|].
  apply Forall_cons in Hfree as [Hxf Hfree].
  constructor; [by apply (utf8_encode_LF_free x)|by apply IH].
Qed.

Lemma mapM_utf8_encode_last (items : list pystr) (lines : list bytes) :
  mapM utf8_encode items = Some lines ->
  last items <> Some [] -> last lines <> Some [].
Proof.
  intros H. apply mapM_Some_1 in H.
  induction H as [|x b items lines Hx Hrest IH]; [done|].
  destruct Hrest as [|x' b' items' lines' Hx' Hrest'].
  - cbn. intros Hne [= ->]. apply utf8_encode_nil_inv in Hx. by subst x.
  - exact IH.
Qed.

(** The file written from a line-feed join, read back as lines. *)
Lemma joined_file_lines (items : list pystr) (content : bytes) :
  utf8_encode (join [LF] items) = Some content ->
  exists lines,
    mapM utf8_encode items = Some lines
    /\ content = join [LF] lines
    /\ (Forall LF_free items -> last items <> Some [] ->
        splitlines content = lines /\ line_count content = length items).
Proof.
  intros H. destruct (utf8_encode_join _ _ H) as (lines & Hlines & ->).
  exists lines. repeat split; try done.
  - apply splitlines_join;
      [by apply (mapM_utf8_encode_LF_free items)|by apply (mapM_utf8_encode_last items)].
  - unfold line_count. rewrite splitlines_join;
      [|by apply (mapM_utf8_encode_LF_free items)|by apply (mapM_utf8_encode_last items)].
    symmetry. by apply length_mapM in Hlines.
Qed.

Lemma texts_LF_free (chunks : list Span.t) :
  forallb (fun chunk => negb (has_LF (Span.text chunk))) chunks = true ->
  Forall LF_free (map Span.text chunks).
Proof.
  induction chunks as [|chunk chunks IH]; cbn [forallb map]; [constructor|].
  rewrite andb_true_iff, negb_true_iff, has_LF_false.
  intros [Ht Hrest]. constructor; [done|by apply IH].
Qed.

Lemma descriptors_LF_free (ents : list Span.t) :
  forallb (fun ent => negb (has_LF (Span.text ent)) && negb (has_LF (Span.label_ ent)))
    ents = true ->
  Forall LF_free (map entity_descriptor ents).
Proof.
  induction ents as [|ent ents IH]; cbn [forallb map]; [constructor|].
  rewrite !andb_true_iff, !negb_true_iff, !has_LF_false.
  intros [[Ht Hl] Hrest]. constructor; [by apply entity_descriptor_LF_free|by apply IH].
Qed.

(** ** Running again *)

Lemma host_put_eq (path : pystr) (bs : bytes) (w : World) :
  host (put path bs w) = host_put path bs (host w).
Proof. reflexivity. Qed.

Lemma host_put_id (path : pystr) (bs : bytes) (h : Host) (r : bool) :
  fs h !! path = Some (File r true bs) -> host_put path bs h = h.
Proof.
  intros H. unfold host_put. rewrite H. cbn [written].
  rewrite insert_id by done. by destruct h.
Qed.

Lemma host_after_export (p text : pystr) (b1 b2 b3 b4 : bytes) (w : World) :
  host (after_export p text b1 b2 b3 b4 w)
  = host_put VISUALIZACAO_HTML b4
      (next_uuid
         (host_put ENTIDADES_TXT b3
            (host_put NOUN_CHUNKS_TXT b2
               (host_put TOKENS_CSV b1 (host w))))).
Proof. reflexivity. Qed.

Lemma fs_next_uuid (h : Host) : fs (next_uuid h) = fs h.
Proof. reflexivity. Qed.

Lemma fs_host_put_eq (path : pystr) (bs : bytes) (h : Host) :
  fs (host_put path bs h) !! path = Some (written (fs h !! path) bs).
Proof. unfold host_put. cbn [fs set_fs]. by rewrite lookup_insert_eq. Qed.

Lemma fs_host_put_ne (path path' : pystr) (bs : bytes) (h : Host) :
  path <> path' -> fs (host_put path bs h) !! path' = fs h !! path'.
Proof. intros Hne. unfold host_put. cbn [fs set_fs]. by rewrite lookup_insert_ne. Qed.

Ltac fs_through :=
  repeat first [rewrite fs_next_uuid | rewrite fs_host_put_ne by discriminate].

(** After a complete run each target is a writable file holding what was
    written to it. *)
Lemma after_export_targets (p text : pystr) (b1 b2 b3 b4 : bytes) (w : World) :
  let h := host (after_export p text b1 b2 b3 b4 w) in
  (exists r, fs h !! TOKENS_CSV = Some (File r true b1))
  /\ (exists r, fs h !! NOUN_CHUNKS_TXT = Some (File r true b2))
  /\ (exists r, fs h !! ENTIDADES_TXT = Some (File r true b3))
  /\ (exists r, fs h !! VISUALIZACAO_HTML = Some (File r true b4)).
Proof.
  cbn zeta. rewrite host_after_export. unfold written.
  repeat split; eexists; fs_through; by rewrite fs_host_put_eq.
Qed.

Lemma after_export_file_content (p text : pystr) (b1 b2 b3 b4 : bytes) (w : World)
    (out : pystr) :
  out ∈ output_files ->
  file_content (after_export p text b1 b2 b3 b4 w) out
  = if str_eqb out TOKENS_CSV then Some b1
    else if str_eqb out NOUN_CHUNKS_TXT then Some b2
    else if str_eqb out ENTIDADES_TXT then Some b3
    else Some b4.
Proof.
  unfold output_files. rewrite !elem_of_cons, elem_of_nil.
  intros [->|[->|[->|[->|[]]]]].
  - apply after_export_tokens_csv.
  - apply after_export_noun_chunks.
  - apply after_export_entidades.
  - apply after_export_html.
Qed.

Lemma after_export_writable (p text : pystr) (b1 b2 b3 b4 : bytes) (w : World)
    (out : pystr) :
  out ∈ output_files ->
  writable_target (fs (host (after_export p text b1 b2 b3 b4 w)) !! out) = true.
Proof.
  destruct (after_export_targets p text b1 b2 b3 b4 w) as ([r1 H1] & [r2 H2] & [r3 H3] & [r4 H4]).
  cbn zeta in *.
  unfold output_files. rewrite !elem_of_cons, elem_of_nil.
  intros [->|[->|[->|[->|[]]]]]; [rewrite H1|rewrite H2|rewrite H3|rewrite H4]; reflexivity.
Qed.

Lemma input_text_same_file (w w1 : World) (path : pystr) :
  fs (host w1) !! path = fs (host w) !! path ->
  input_text w1 path = input_text w path.
Proof. unfold input_text. by intros ->. Qed.

Lemma path_exists_same_file (w w1 : World) (path : pystr) :
  fs (host w1) !! path = fs (host w) !! path ->
  path_exists w1 path = path_exists w path.
Proof. unfold path_exists. by intros ->. Qed.

Section Determinism.

Variable displacy_render : pystr -> Doc.t -> result pystr.

(** Two complete runs over the same text with the same model write the
    same bytes to the three text files, whatever the targets held before;
    the markup is the same when the identifier drawn is. *)
Lemma exported_same_bytes (pA pB : pystr) (wA wA' wB wB' : World)
    (textA textB : pystr) (docA docB : Doc.t) (a1 a2 a3 a4 b1 b2 b3 b4 : bytes) :
  exported displacy_render pA wA wA' textA docA a1 a2 a3 a4 ->
  exported displacy_render pB wB wB' textB docB b1 b2 b3 b4 ->
  textA = textB ->
  spacy_load_result (host wA) MODEL_NAME = spacy_load_result (host wB) MODEL_NAME ->
  docA = docB /\ a1 = b1 /\ a2 = b2 /\ a3 = b3
  /\ (uuid_hex (host wA) 0%nat = uuid_hex (host wB) 0%nat -> a4 = b4).
Proof.
  intros [_ (nlpA & HlA & HdA) HA1 HA2 HA3 (htmlA & HrA & HA4) _ _].
  intros [_ (nlpB & HlB & HdB) HB1 HB2 HB3 (htmlB & HrB & HB4) _ _].
  intros -> Hmodel.
  assert (nlpA = nlpB) as -> by congruence.
  assert (docA = docB) as -> by congruence.
  repeat split; congruence.
Qed.

End Determinism.

(** ** The end of a joined text *)

(** A join ends with its last item: no separator follows it. *)
Lemma join_last_suffix (sep : pystr) (items : list pystr) (x : pystr) :
  last items = Some x -> x `suffix_of` join sep items.
Proof.
  induction items as [|y [|z items] IH]; [done| |].
  - intros [= ->]. by exists [].
  - intros Hlast. destruct (IH Hlast) as [k Hk].
    exists (y ++ sep ++ k). rewrite join_cons2, Hk. by rewrite <- !app_assoc.
Qed.

Lemma utf8_encode_snoc_ascii (s : pystr) (c : N) (bs : bytes) :
  (c <? 0x80) = true ->
  utf8_encode (s ++ [c]) = Some bs -> last bs = Some c.
Proof.
  intros Hc H. apply utf8_encode_app_Some in H as (x & y & _ & Hy & ->).
  cbn [utf8_encode] in Hy. unfold utf8_encode_char in Hy. rewrite Hc in Hy.
  injection Hy as <-. apply last_snoc.
Qed.

(** The entity file, when not empty, ends with the closing parenthesis
    of its last descriptor. *)
Lemma entities_text_last (ents : list Span.t) (bs : bytes) :
  ents <> [] ->
  utf8_encode (join [LF] (map entity_descriptor ents)) = Some bs ->
  last bs = Some RPAREN.
Proof.
  intros Hne. destruct ents as [|e0 ents0] using rev_ind; [done|]. clear IHents0.
  rewrite map_app. cbn [map]. rewrite join_snoc.
  assert (exists pre, entity_descriptor e0 = pre ++ [RPAREN]) as [pre Hpre].
  { exists (Span.text e0 ++ py " (" ++ Span.label_ e0). unfold entity_descriptor.
    by rewrite <- !app_assoc. }
  rewrite Hpre.
  destruct (map entity_descriptor ents0).
  - by apply utf8_encode_snoc_ascii.
  - rewrite !app_assoc. by apply utf8_encode_snoc_ascii.
Qed.

Lemma py_bool_cases (b : bool) : py_bool b = py "True" \/ py_bool b = py "False".
Proof. destruct b; [by left|by right]. Qed.

(** * The properties of the specification *)

Section Specification.

Variable sys_executable : pystr.
Variable spawn : list pystr -> Host -> spawn_outcome * Host.
Variable displacy_render : pystr -> Doc.t -> result pystr.
Variable csv_partial : pystr -> bytes.

(** C1.  When the path given does not exist, [process_text_file] prints
    the not-found message and returns normally: the trace gains that one
    event (no model load, no read, no write), the host is left as it was,
    so none of the four output files is created, and a script that got
    this path from its start-up ends with status 0. *)
Theorem C1_missing_path_soft_failure (file_path : pystr) (w : World) :
  path_exists w file_path = false ->
  let w' := log (EvPrint MSG_NOT_FOUND) w in
  process_text_file displacy_render csv_partial file_path w = (Ok tt, w')
  /\ trace w' = trace w ++ [EvPrint MSG_NOT_FOUND]
  /\ host w' = host w
  /\ (forall out, out ∈ output_files -> file_content w' out = file_content w out)
  /\ forall w0,
       startup sys_executable spawn w0 = (Ok file_path, w) ->
       script sys_executable spawn displacy_render csv_partial w0 = (Ok tt, w')
       /\ exit_status (fst (script sys_executable spawn displacy_render csv_partial w0)) = 0%Z.
Proof.
  intros Hmissing w'.
  assert (process_text_file displacy_render csv_partial file_path w = (Ok tt, w')) as Hrun.
  { unfold process_text_file, bind, os_path_exists. rewrite Hmissing. reflexivity. }
  repeat split; try done.
  - rewrite script_startup. by rewrite (bind_Ok _ _ _ _ _ H).
  - rewrite script_startup. rewrite (bind_Ok _ _ _ _ _ H), Hrun. reflexivity.
Qed.

(** C2.  In a run that reaches the export stage, the bytes written to
    [analise_tokens.csv] decode, as UTF-8, to a CSV text whose records,
    after the header, are one per token of the document, in the order of
    the tokens, each made of that token's eight attributes; the two flags
    are printed as the words [True] and [False], given here by their code
    points. *)
Theorem C2_token_table_rows (file_path : pystr) (w w' : World) (text : pystr)
    (nlp : Language) (doc : Doc.t) :
  input_text w file_path = Some text ->
  spacy_load_result (host w) MODEL_NAME = Ok nlp ->
  nlp text = Ok doc ->
  process_text_file displacy_render csv_partial file_path w = (Ok tt, w') ->
  exists (s : pystr) (content : bytes) (rows : list (list pystr)),
    file_content w' TOKENS_CSV = Some content
    /\ utf8_decode content = Some s
    /\ csv_read s = Some (header :: rows)
    /\ length rows = length (Doc.tokens doc)
    /\ forall (i : nat) (token : Token.t),
         Doc.tokens doc !! i = Some token ->
         rows !! i = Some [Token.text token; Token.lemma_ token; Token.pos_ token;
                           Token.tag_ token; Token.dep_ token; Token.shape_ token;
                           if Token.is_alpha token
                           then [84; 114; 117; 101] else [70; 97; 108; 115; 101];
                           if Token.is_stop token
                           then [84; 114; 117; 101] else [70; 97; 108; 115; 101]].
Proof.
  intros Hin Hload Hdoc Hrun.
  destruct (run_exported _ _ _ _ _ _ _ _ Hin Hload Hdoc Hrun)
    as (b1 & b2 & b3 & b4 & [_ _ He1 _ _ _ _ ->]).
  exists (tokens_csv_text doc), b1, (map token_fields (Doc.tokens doc)).
  split; [apply after_export_tokens_csv|].
  split; [by apply utf8_decode_encode|].
  split; [apply csv_read_csv_text|].
  split; [apply length_map|].
  intros i token Hi. rewrite list_lookup_fmap, Hi. cbn [option_map fmap option_fmap].
  unfold token_fields, token_row. cbn [map cell_str]. unfold py_bool.
  by destruct (Token.is_alpha token), (Token.is_stop token).
Qed.

(** C3.  In a run that reaches the export stage, [analise_tokens.csv] is
    UTF-8 text whose first line is exactly the header
    [Texto,Lema,POS,Tag,Dep,Shape,Alfabético,Stopword]; the header has
    eight names and every record has eight fields, so no index column is
    written. *)
Theorem C3_token_table_header (file_path : pystr) (w w' : World) (text : pystr)
    (nlp : Language) (doc : Doc.t) :
  input_text w file_path = Some text ->
  spacy_load_result (host w) MODEL_NAME = Ok nlp ->
  nlp text = Ok doc ->
  process_text_file displacy_render csv_partial file_path w = (Ok tt, w') ->
  exists (s : pystr) (content rest : bytes) (rows : list (list pystr)),
    file_content w' TOKENS_CSV = Some content
    /\ utf8_encode s = Some content
    /\ utf8_decode content = Some s
    /\ content = HEADER_LINE ++ LF :: rest
    /\ head (splitlines content) = Some HEADER_LINE
    /\ utf8_encode (join [COMMA] header) = Some HEADER_LINE
    /\ csv_read s = Some (header :: rows)
    /\ length header = 8%nat
    /\ Forall (fun row => length row = 8%nat) rows.
Proof.
  intros Hin Hload Hdoc Hrun.
  destruct (run_exported _ _ _ _ _ _ _ _ Hin Hload Hdoc Hrun)
    as (b1 & b2 & b3 & b4 & [_ _ He1 _ _ _ _ ->]).
  pose proof He1 as He. unfold tokens_csv_text, csv_text in He.
  cbn [map concat] in He. apply utf8_encode_app_Some in He as (x & rest & Hx & _ & ->).
  rewrite utf8_encode_header_row in Hx. injection Hx as <-.
  exists (tokens_csv_text doc), ((HEADER_LINE ++ [LF]) ++ rest), rest,
    (map token_fields (Doc.tokens doc)).
  rewrite <- app_assoc. cbn [app].
  split; [apply after_export_tokens_csv|].
  split; [exact He1|].
  split; [by apply utf8_decode_encode|].
  split; [reflexivity|].
  split; [by rewrite splitlines_first_line by apply HEADER_LINE_LF_free|].
  split; [vm_compute; reflexivity|].
  split; [apply csv_read_csv_text|].
  split; [reflexivity|].
  apply Forall_forall. intros row Hrow. apply list_elem_of_fmap in Hrow as (token & -> & _).
  apply token_fields_length.
Qed.

(** C4, amended.  In a run that reaches the export stage, whatever the
    entities found, [entidades_nomeadas.txt] holds the entities'
    descriptors, each the surface text, a space and the label in
    parentheses, in document order and joined by line feeds.  When
    moreover no surface text and no label holds a line feed, the lines of
    the file are exactly these descriptors, so the file has as many lines
    as there are entities. *)
Theorem C4_entity_file_lines (file_path : pystr) (w w' : World) (text : pystr)
    (nlp : Language) (doc : Doc.t) :
  input_text w file_path = Some text ->
  spacy_load_result (host w) MODEL_NAME = Ok nlp ->
  nlp text = Ok doc ->
  process_text_file displacy_render csv_partial file_path w = (Ok tt, w') ->
  exists (content : bytes) (lines : list bytes),
    file_content w' ENTIDADES_TXT = Some content
    /\ (forall ent, entity_descriptor ent
                    = Span.text ent ++ [SPACE; LPAREN] ++ Span.label_ ent ++ [RPAREN])
    /\ mapM utf8_encode (map entity_descriptor (Doc.ents doc)) = Some lines
    /\ content = join [LF] lines
    /\ (forallb (fun ent => negb (has_LF (Span.text ent)) && negb (has_LF (Span.label_ ent)))
          (Doc.ents doc) = true ->
        splitlines content = lines
        /\ line_count content = length (Doc.ents doc)).
Proof.
  intros Hin Hload Hdoc Hrun.
  destruct (run_exported _ _ _ _ _ _ _ _ Hin Hload Hdoc Hrun)
    as (b1 & b2 & b3 & b4 & [_ _ _ _ He3 _ _ ->]).
  destruct (joined_file_lines _ _ He3) as (lines & Hlines & Hjoin & Hsplit).
  exists b3, lines. split; [apply after_export_entidades|].
  split; [reflexivity|]. split; [exact Hlines|]. split; [exact Hjoin|].
  intros Hplain.
  destruct Hsplit as [Hsplit Hcount];
    [by apply descriptors_LF_free|apply last_map_descriptor_not_nil|].
  rewrite length_map in Hcount. done.
Qed.

(** C5, amended.  In a run that reaches the export stage, whatever the
    noun phrases found, [noun_chunks.txt] holds the noun phrases' surface
    texts in document order, joined by line feeds and UTF-8 encoded.
    When moreover no surface text holds a line feed and the last one is
    not empty, the lines of the file are exactly these texts, so the file
    has as many lines as there are noun phrases. *)
Theorem C5_noun_chunk_file_lines (file_path : pystr) (w w' : World) (text : pystr)
    (nlp : Language) (doc : Doc.t) :
  input_text w file_path = Some text ->
  spacy_load_result (host w) MODEL_NAME = Ok nlp ->
  nlp text = Ok doc ->
  process_text_file displacy_render csv_partial file_path w = (Ok tt, w') ->
  exists (content : bytes) (lines : list bytes),
    file_content w' NOUN_CHUNKS_TXT = Some content
    /\ mapM utf8_encode (map Span.text (Doc.noun_chunks doc)) = Some lines
    /\ content = join [LF] lines
    /\ (forallb (fun chunk => negb (has_LF (Span.text chunk))) (Doc.noun_chunks doc) = true ->
        last (map Span.text (Doc.noun_chunks doc)) <> Some [] ->
        splitlines content = lines
        /\ line_count content = length (Doc.noun_chunks doc)).
Proof.
  intros Hin Hload Hdoc Hrun.
  destruct (run_exported _ _ _ _ _ _ _ _ Hin Hload Hdoc Hrun)
    as (b1 & b2 & b3 & b4 & [_ _ _ He2 _ _ _ ->]).
  destruct (joined_file_lines _ _ He2) as (lines & Hlines & Hjoin & Hsplit).
  exists b2, lines. split; [apply after_export_noun_chunks|].
  split; [exact Hlines|]. split; [exact Hjoin|].
  intros Hplain Hlast.
  destruct (Hsplit (texts_LF_free _ Hplain) Hlast) as [Hsp Hcount].
  rewrite length_map in Hcount. done.
Qed.


(** C7, amended.  A second run over the same input file, on the host the
    first run left, writes the token table, the noun phrases and the
    entities again and leaves these three files byte for byte what the
    first run wrote.  The HTML file is different: the renderer is called
    again with the next identifier the host draws, and the file is
    replaced whole by the encoding of the markup that this call returns
    (left as it was when the call raises, left empty when the markup
    cannot be encoded); the second run returns normally and the four
    files are unchanged when the renderer gives what it gave the first
    time.  Each target is replaced whole: a run on the same text with the
    same model from any other state of the targets writes the same three
    text files, and an HTML file that is the encoding of its markup. *)
Theorem C7_second_run_rewrites_outputs (file_path : pystr) (w w1 : World) :
  process_text_file displacy_render csv_partial file_path w = (Ok tt, w1) ->
  fs (host w1) !! file_path = fs (host w) !! file_path ->
  exists (r2 : result unit) (w2 : World),
    process_text_file displacy_render csv_partial file_path w1 = (r2, w2)
    /\ (forall out, out ∈ [TOKENS_CSV; NOUN_CHUNKS_TXT; ENTIDADES_TXT] ->
          file_content w2 out = file_content w1 out)
    /\ (path_exists w file_path = false -> r2 = Ok tt /\ host w2 = host w1)
    /\ (path_exists w file_path = true ->
        exists (text : pystr) (nlp : Language) (doc : Doc.t) (html1 : pystr) (b_html1 : bytes),
          input_text w file_path = Some text
          /\ spacy_load_result (host w) MODEL_NAME = Ok nlp
          /\ nlp text = Ok doc
          /\ displacy_render (uuid_hex (host w) 0%nat) doc = Ok html1
          /\ utf8_encode html1 = Some b_html1
          /\ file_content w1 VISUALIZACAO_HTML = Some b_html1
          /\ uuid_hex (host w1) 0%nat = uuid_hex (host w) 1%nat
          /\ match displacy_render (uuid_hex (host w1) 0%nat) doc with
             | Ok html2 =>
                 match utf8_encode html2 with
                 | Some b_html2 =>
                     r2 = Ok tt /\ file_content w2 VISUALIZACAO_HTML = Some b_html2
                 | None =>
                     r2 = Raise UnicodeEncodeError
                     /\ file_content w2 VISUALIZACAO_HTML = Some []
                 end
             | Raise e =>
                 r2 = Raise e
                 /\ file_content w2 VISUALIZACAO_HTML = file_content w1 VISUALIZACAO_HTML
             end
          /\ (displacy_render (uuid_hex (host w1) 0%nat) doc
              = displacy_render (uuid_hex (host w) 0%nat) doc ->
              r2 = Ok tt
              /\ forall out, out ∈ output_files -> file_content w2 out = file_content w1 out)
          /\ forall (wB wB' : World),
               fs (host wB) !! file_path = fs (host w) !! file_path ->
               spacy_load_result (host wB) MODEL_NAME
               = spacy_load_result (host w) MODEL_NAME ->
               process_text_file displacy_render csv_partial file_path wB = (Ok tt, wB') ->
               (forall out, out ∈ [TOKENS_CSV; NOUN_CHUNKS_TXT; ENTIDADES_TXT] ->
                  file_content wB' out = file_content w1 out)
               /\ exists htmlB,
                    displacy_render (uuid_hex (host wB) 0%nat) doc = Ok htmlB
                    /\ file_content wB' VISUALIZACAO_HTML = utf8_encode htmlB).
Proof.
  intros Hrun Hsame.
  destruct (path_exists w file_path) eqn:Hex.
  - destruct (process_text_file_Ok_inv _ _ _ _ _ Hex Hrun)
      as (text & doc & b1 & b2 & b3 & b4 & Hexp).
    pose proof Hexp as [Htext (nlp & Hload & Hdoc) He1 He2 He3 (html1 & Hr1 & He4) Hw Hw1].
    assert (Hthree : forall out, out ∈ [TOKENS_CSV; NOUN_CHUNKS_TXT; ENTIDADES_TXT] ->
                                 out ∈ output_files).
    { intros out. unfold output_files. rewrite !elem_of_cons, !elem_of_nil. tauto. }
    assert (Htext1 : input_text w1 file_path = Some text)
      by (by rewrite (input_text_same_file w w1)).
    assert (Hload1 : spacy_load_result (host w1) MODEL_NAME = Ok nlp)
      by (subst w1; by rewrite after_export_model).
    assert (Hw1' : forall out, out ∈ output_files ->
                               writable_target (fs (host w1) !! out) = true)
      by (intros out Hout; subst w1; by apply after_export_writable).
    pose proof (process_text_file_at_render displacy_render csv_partial
                  file_path w1 text nlp doc b1 b2 b3 Htext1 Hload1 Hdoc He1 He2 He3
                  (fun out Hout => Hw1' out (Hthree out Hout))) as Hstep.
    set (W := at_render file_path text b1 b2 b3 w1) in Hstep.
    assert (Hc1 : file_content w1 TOKENS_CSV = Some b1)
      by (subst w1; apply after_export_tokens_csv).
    assert (Hc2 : file_content w1 NOUN_CHUNKS_TXT = Some b2)
      by (subst w1; apply after_export_noun_chunks).
    assert (Hc3 : file_content w1 ENTIDADES_TXT = Some b3)
      by (subst w1; apply after_export_entidades).
    assert (Hc4 : file_content w1 VISUALIZACAO_HTML = Some b4)
      by (subst w1; apply after_export_html).
    assert (HW : forall out, out ∈ output_files -> file_content W out = file_content w1 out).
    { intros out. unfold output_files. rewrite !elem_of_cons, elem_of_nil.
      subst W. unfold at_render. rewrite file_content_drawn, file_content_log.
      intros [->|[->|[->|[->|[]]]]].
      - rewrite !file_content_put_ne by discriminate. by rewrite file_content_put.
      - rewrite !file_content_put_ne by discriminate. by rewrite file_content_put.
      - by rewrite file_content_put.
      - rewrite !file_content_put_ne by discriminate. by rewrite !file_content_log. }
    assert (HWw : writable_target (fs (host W) !! VISUALIZACAO_HTML) = true).
    { subst W. unfold at_render. rewrite fs_drawn, host_log.
      rewrite !fs_put_ne by discriminate. rewrite !host_log.
      apply Hw1'. unfold output_files. set_solver. }
    assert (Hput : forall b out, out ∈ [TOKENS_CSV; NOUN_CHUNKS_TXT; ENTIDADES_TXT] ->
                     file_content (put VISUALIZACAO_HTML b W) out = file_content w1 out).
    { intros b out Hout. rewrite <- (HW out (Hthree out Hout)).
      apply file_content_put_ne. intros <-.
      revert Hout. rewrite !elem_of_cons, elem_of_nil.
      intros [H|[H|[H|[]]]]; discriminate H. }
    assert (HB : forall (wB wB' : World),
               fs (host wB) !! file_path = fs (host w) !! file_path ->
               spacy_load_result (host wB) MODEL_NAME
               = spacy_load_result (host w) MODEL_NAME ->
               process_text_file displacy_render csv_partial file_path wB = (Ok tt, wB') ->
               (forall out, out ∈ [TOKENS_CSV; NOUN_CHUNKS_TXT; ENTIDADES_TXT] ->
                  file_content wB' out = file_content w1 out)
               /\ exists htmlB,
                    displacy_render (uuid_hex (host wB) 0%nat) doc = Ok htmlB
                    /\ file_content wB' VISUALIZACAO_HTML = utf8_encode htmlB).
    { intros wB wB' HsameB HmodelB HrunB.
      assert (path_exists wB file_path = true) as HexB
        by (by rewrite (path_exists_same_file w wB)).
      destruct (process_text_file_Ok_inv _ _ _ _ _ HexB HrunB)
        as (textB & docB & c1 & c2 & c3 & c4 & HexpB).
      assert (textB = text) as HtB.
      { destruct HexpB as [HtextB _ _ _ _ _ _ _].
        rewrite (input_text_same_file w wB) in HtextB by done. congruence. }
      destruct (exported_same_bytes _ _ _ _ _ _ _ _ _ _ _ _ _ _ _ _ _ _ _
                  HexpB Hexp HtB HmodelB) as (-> & -> & -> & -> & _).
      destruct HexpB as [_ _ _ _ _ (htmlB & HrB & HeB) _ ->]. split.
      - intros out. rewrite !elem_of_cons, elem_of_nil. intros [->|[->|[->|[]]]].
        + by rewrite after_export_tokens_csv.
        + by rewrite after_export_noun_chunks.
        + by rewrite after_export_entidades.
      - exists htmlB. split; [exact HrB|]. by rewrite after_export_html. }
    assert (Hid : uuid_hex (host w1) 0%nat = uuid_hex (host w) 1%nat)
      by (subst w1; reflexivity).
    destruct (displacy_render (uuid_hex (host w1) 0%nat) doc) as [html2|e] eqn:Hr2.
    + unfold bind, open_write in Hstep.
      destruct (utf8_encode html2) as [b|] eqn:He.
      * rewrite (write_text_Ok _ _ _ _ _ HWw He) in Hstep.
        exists (Ok tt), (log (EvPrint MSG_DONE) (put VISUALIZACAO_HTML b W)).
        split; [exact Hstep|].
        split; [intros out Hout; rewrite file_content_log; by apply Hput|].
        split; [discriminate|]. intros _.
        exists text, nlp, doc, html1, b4. rewrite Hr2, He.
        repeat (split; [done|]).
        split; [split; [done|]; rewrite file_content_log; apply file_content_put|].
        split; [|exact HB].
        intros Heq. split; [done|].
        assert (b = b4) as -> by congruence.
        intros out. unfold output_files. rewrite !elem_of_cons, elem_of_nil.
        rewrite file_content_log.
        intros [->|[->|[->|[->|[]]]]];
          first [by rewrite Hc4, file_content_put
                | apply Hput; rewrite !elem_of_cons; tauto].
      * rewrite (write_text_unencodable _ _ _ _ HWw He) in Hstep.
        exists (Raise UnicodeEncodeError), (put VISUALIZACAO_HTML [] W).
        split; [exact Hstep|].
        split; [intros out Hout; by apply Hput|].
        split; [discriminate|]. intros _.
        exists text, nlp, doc, html1, b4. rewrite Hr2, He.
        repeat (split; [done|]).
        split; [split; [done|]; apply file_content_put|].
        split; [|exact HB].
        intros Heq. congruence.
    + exists (Raise e), W.
      split; [exact Hstep|].
      split; [intros out Hout; apply HW; by apply Hthree|].
      split; [discriminate|]. intros _.
      exists text, nlp, doc, html1, b4. rewrite Hr2.
      repeat (split; [done|]).
      split; [split; [done|]; apply HW; unfold output_files;
              rewrite !elem_of_cons; tauto|].
      split; [|exact HB].
      intros Heq. congruence.
  - assert (w1 = log (EvPrint MSG_NOT_FOUND) w) as ->.
    { unfold process_text_file, bind, os_path_exists in Hrun. rewrite Hex in Hrun.
      by injection Hrun as <-. }
    exists (Ok tt), (log (EvPrint MSG_NOT_FOUND) (log (EvPrint MSG_NOT_FOUND) w)).
    split.
    + unfold process_text_file, bind, os_path_exists.
      change (path_exists (log (EvPrint MSG_NOT_FOUND) w) file_path)
        with (path_exists w file_path).
      by rewrite Hex.
    + split; [reflexivity|]. split; [done|]. discriminate.
Qed.

(** C8.  In the token table, the fields under [Alfabético] and
    [Stopword] of every row are the printed form of a boolean, [True] or
    [False], namely of the token's two flags; and a second run over the
    same text with the same model, from any state of the host, writes the
    same table, hence the same flags. *)
Theorem C8_flags_boolean_and_deterministic (pathA pathB : pystr)
    (wA wA' wB wB' : World) (text : pystr) (nlp : Language) (doc : Doc.t) :
  input_text wA pathA = Some text ->
  spacy_load_result (host wA) MODEL_NAME = Ok nlp ->
  nlp text = Ok doc ->
  process_text_file displacy_render csv_partial pathA wA = (Ok tt, wA') ->
  input_text wB pathB = Some text ->
  spacy_load_result (host wB) MODEL_NAME = Ok nlp ->
  process_text_file displacy_render csv_partial pathB wB = (Ok tt, wB') ->
  exists (s : pystr) (content : bytes) (rows : list (list pystr)),
    file_content wA' TOKENS_CSV = Some content
    /\ utf8_decode content = Some s
    /\ csv_read s = Some (header :: rows)
    /\ header !! 6%nat = Some K_Alfabetico
    /\ header !! 7%nat = Some K_Stopword
    /\ (forall (i : nat) (token : Token.t),
          Doc.tokens doc !! i = Some token ->
          exists row, rows !! i = Some row
                      /\ row !! 6%nat = Some (py_bool (Token.is_alpha token))
                      /\ row !! 7%nat = Some (py_bool (Token.is_stop token)))
    /\ (forall row, row ∈ rows ->
          exists alpha stop : bool,
            row !! 6%nat = Some (py_bool alpha) /\ row !! 7%nat = Some (py_bool stop))
    /\ (forall b : bool, py_bool b = py "True" \/ py_bool b = py "False")
    /\ file_content wB' TOKENS_CSV = Some content.
Proof.
  intros HinA HloadA Hdoc HrunA HinB HloadB HrunB.
  destruct (run_exported _ _ _ _ _ _ _ _ HinA HloadA Hdoc HrunA)
    as (a1 & a2 & a3 & a4 & HexpA).
  destruct (run_exported _ _ _ _ _ _ _ _ HinB HloadB Hdoc HrunB)
    as (b1 & b2 & b3 & b4 & HexpB).
  destruct (exported_same_bytes _ _ _ _ _ _ _ _ _ _ _ _ _ _ _ _ _ _ _ HexpA HexpB eq_refl)
    as (_ & -> & _); [congruence|].
  destruct HexpA as [_ _ He1 _ _ _ _ ->]. destruct HexpB as [_ _ _ _ _ _ _ ->].
  exists (tokens_csv_text doc), b1, (map token_fields (Doc.tokens doc)).
  split; [apply after_export_tokens_csv|].
  split; [by apply utf8_decode_encode|].
  split; [apply csv_read_csv_text|].
  split; [reflexivity|]. split; [reflexivity|].
  split.
  { intros i token Hi. exists (token_fields token).
    rewrite list_lookup_fmap, Hi. by repeat split. }
  split.
  { intros row Hrow. apply list_elem_of_fmap in Hrow as (token & -> & _).
    exists (Token.is_alpha token), (Token.is_stop token). by split. }
  split; [apply py_bool_cases|].
  apply after_export_tokens_csv.
Qed.

(** C9.  The noun-phrase file and the entity file hold the line-feed join
    of their items' encodings: with [n] items there are [n - 1]
    separators, the last item ends the file and no line feed is added
    after it (the entity file, when not empty, ends with a closing
    parenthesis); with no item the file is still written, and is empty. *)
Theorem C9_join_without_final_newline (file_path : pystr) (w w' : World)
    (text : pystr) (nlp : Language) (doc : Doc.t) :
  input_text w file_path = Some text ->
  spacy_load_result (host w) MODEL_NAME = Ok nlp ->
  nlp text = Ok doc ->
  process_text_file displacy_render csv_partial file_path w = (Ok tt, w') ->
  exists (chunks_content ents_content : bytes) (chunk_lines ent_lines : list bytes),
    file_content w' NOUN_CHUNKS_TXT = Some chunks_content
    /\ file_content w' ENTIDADES_TXT = Some ents_content
    /\ mapM utf8_encode (map Span.text (Doc.noun_chunks doc)) = Some chunk_lines
    /\ mapM utf8_encode (map entity_descriptor (Doc.ents doc)) = Some ent_lines
    /\ chunks_content = join [LF] chunk_lines
    /\ ents_content = join [LF] ent_lines
    /\ length chunks_content
       = (total_length chunk_lines + (length (Doc.noun_chunks doc) - 1))%nat
    /\ length ents_content
       = (total_length ent_lines + (length (Doc.ents doc) - 1))%nat
    /\ (forall l, last chunk_lines = Some l -> l `suffix_of` chunks_content)
    /\ (forall l, last ent_lines = Some l -> l `suffix_of` ents_content)
    /\ (Doc.ents doc <> [] -> last ents_content = Some RPAREN)
    /\ (Doc.noun_chunks doc = [] -> chunks_content = [])
    /\ (Doc.ents doc = [] -> ents_content = []).
Proof.
  intros Hin Hload Hdoc Hrun.
  destruct (run_exported _ _ _ _ _ _ _ _ Hin Hload Hdoc Hrun)
    as (b1 & b2 & b3 & b4 & [_ _ _ He2 He3 _ _ ->]).
  destruct (utf8_encode_join _ _ He2) as (chunk_lines & Hcl & Hc).
  destruct (utf8_encode_join _ _ He3) as (ent_lines & Hel & He).
  pose proof (length_mapM _ _ _ Hcl) as Hlc. rewrite length_map in Hlc.
  pose proof (length_mapM _ _ _ Hel) as Hle. rewrite length_map in Hle.
  exists b2, b3, chunk_lines, ent_lines.
  split; [apply after_export_noun_chunks|].
  split; [apply after_export_entidades|].
  do 4 (split; [done|]).
  split; [rewrite Hc, length_join, Hlc; cbn [length]; lia|].
  split; [rewrite He, length_join, Hle; cbn [length]; lia|].
  split; [intros l Hl; rewrite Hc; by apply join_last_suffix|].
  split; [intros l Hl; rewrite He; by apply join_last_suffix|].
  split; [intros Hne; by apply (entities_text_last (Doc.ents doc))|].
  split.
  - intros Hnil. unfold noun_chunks_text in He2. rewrite Hnil in He2.
    by injection He2 as <-.
  - intros Hnil. unfold entities_text in He3. rewrite Hnil in He3.
    by injection He3 as <-.
Qed.

(** C10.  Existence of the path is all that [process_text_file] checks.
    When the path exists but no text can be read from it (a directory, a
    file that may not be read, bytes that are not UTF-8), the not-found
    message is not printed: the model is loaded, then opening or decoding
    the input raises, and the exception leaves the function, and the
    script with status 1, with nothing written. *)
Theorem C10_unreadable_input_raises (file_path : pystr) (w : World) (nlp : Language) :
  path_exists w file_path = true ->
  spacy_load_result (host w) MODEL_NAME = Ok nlp ->
  input_text w file_path = None ->
  exists e : exn,
    process_text_file displacy_render csv_partial file_path w
    = (Raise e, log (EvOpenRead file_path) (log (EvSpacyLoad MODEL_NAME) w))
    /\ match fs (host w) !! file_path with
       | Some Dir => e = IsADirectoryError
       | Some (File false _ _) => e = PermissionError
       | Some (File true _ content) => utf8_decode content = None /\ e = UnicodeDecodeError
       | None => False
       end
    /\ forall w0,
         startup sys_executable spawn w0 = (Ok file_path, w) ->
         script sys_executable spawn displacy_render csv_partial w0
         = (Raise e, log (EvOpenRead file_path) (log (EvSpacyLoad MODEL_NAME) w))
         /\ exit_status (fst (script sys_executable spawn displacy_render csv_partial w0)) = 1%Z.
Proof.
  intros Hex Hload Hnone.
  assert (exists e,
            read_text file_path (log (EvSpacyLoad MODEL_NAME) w)
            = (Raise e, log (EvOpenRead file_path) (log (EvSpacyLoad MODEL_NAME) w))
            /\ match fs (host w) !! file_path with
               | Some Dir => e = IsADirectoryError
               | Some (File false _ _) => e = PermissionError
               | Some (File true _ content) =>
                   utf8_decode content = None /\ e = UnicodeDecodeError
               | None => False
               end) as (e & Hread & He).
  { unfold read_text, input_text, path_exists in *. cbn [host log].
    destruct (fs (host w) !! file_path) as [[[|] wr content|]|] eqn:Hfs.
    - destruct (utf8_decode content) eqn:Hd; [discriminate Hnone|].
      by exists UnicodeDecodeError.
    - by exists PermissionError.
    - by exists IsADirectoryError.
    - apply bool_decide_eq_true in Hex. by destruct Hex. }
  assert (process_text_file displacy_render csv_partial file_path w
          = (Raise e, log (EvOpenRead file_path) (log (EvSpacyLoad MODEL_NAME) w))) as Hrun.
  { unfold process_text_file.
    rewrite (bind_Ok _ _ _ _ _ (os_path_exists_true _ _ Hex)). cbn [negb].
    rewrite (bind_Ok _ _ w (log (EvSpacyLoad MODEL_NAME) w) nlp)
      by (unfold spacy_load; cbn [host log]; by rewrite Hload).
    by rewrite (bind_Raise _ _ _ _ _ Hread). }
  exists e. split; [exact Hrun|]. split; [exact He|].
  intros w0 Hstart. rewrite script_startup, (bind_Ok _ _ _ _ _ Hstart), Hrun. by split.
Qed.

End Specification.

(** C1 at a path that the sample machine does not have. *)
Lemma C1_missing_path_soft_failure_witness :
  path_exists (Sample.world "nada.txt") (py "nada.txt") = false
  /\ Sample.run "nada.txt" = (Ok tt, log (EvPrint MSG_NOT_FOUND) (Sample.world "nada.txt")).
Proof.
  split; [vm_compute; reflexivity|].
  apply (C1_missing_path_soft_failure Sample.executable Sample.spawn Sample.render
           Sample.partial (py "nada.txt") (Sample.world "nada.txt")).
  vm_compute. reflexivity.
Defined.

(** C2 on the sentence [O gato correu.]: four tokens, four rows. *)
Lemma C2_token_table_rows_witness :
  exists (s : pystr) (content : bytes) (rows : list (list pystr)),
    file_content (snd (Sample.run "gato.txt")) TOKENS_CSV = Some content
    /\ utf8_decode content = Some s
    /\ csv_read s = Some (header :: rows)
    /\ length rows = 4%nat.
Proof.
  destruct (C2_token_table_rows Sample.render Sample.partial (py "gato.txt")
              (Sample.world "gato.txt") (snd (Sample.run "gato.txt"))
              Sample.TEXT_GATO Sample.nlp Sample.doc_gato)
    as (s & content & rows & H1 & H2 & H3 & H4 & _);
    [vm_compute; reflexivity ..|].
  exists s, content, rows. auto.
Defined.

(** C3 on the same run. *)
Lemma C3_token_table_header_witness :
  exists (content rest : bytes),
    file_content (snd (Sample.run "gato.txt")) TOKENS_CSV = Some content
    /\ content = HEADER_LINE ++ LF :: rest.
Proof.
  destruct (C3_token_table_header Sample.render Sample.partial (py "gato.txt")
              (Sample.world "gato.txt") (snd (Sample.run "gato.txt"))
              Sample.TEXT_GATO Sample.nlp Sample.doc_gato)
    as (s & content & rest & rows & H1 & H2 & _ & H3 & _);
    [vm_compute; reflexivity ..|].
  exists content, rest. auto.
Defined.

(** C4 as first stated fails: on an input where a name is broken over
    two lines, the model gives one entity whose surface text holds the
    line feed, and the file written for it has two lines. *)
Lemma C4_entity_line_count_counterexample :
  input_text (Sample.world "quebra.txt") (py "quebra.txt") = Some Sample.TEXT_QUEBRA
  /\ Sample.nlp Sample.TEXT_QUEBRA = Ok Sample.doc_quebra
  /\ fst (Sample.run "quebra.txt") = Ok tt
  /\ length (Doc.ents Sample.doc_quebra) = 1%nat
  /\ exists content,
       file_content (snd (Sample.run "quebra.txt")) ENTIDADES_TXT = Some content
       /\ content = py "Rio" ++ [LF] ++ py "Branco (LOC)"
       /\ line_count content = 2%nat
       /\ line_count content <> length (Doc.ents Sample.doc_quebra).
Proof.
  repeat split; try (vm_compute; reflexivity).
  exists (py "Rio" ++ [LF] ++ py "Branco (LOC)").
  repeat split; try (vm_compute; reflexivity).
  vm_compute. discriminate.
Qed.

(** C4, amended, on a text with two entities, and on the text of the
    broken name, where the file is still the join of the descriptors. *)
Lemma C4_entity_file_lines_witness :
  (exists (content : bytes),
     file_content (snd (Sample.run "maria.txt")) ENTIDADES_TXT = Some content
     /\ splitlines content = [py "Maria (PER)"; py "Lisboa (LOC)"]
     /\ line_count content = 2%nat)
  /\ exists (content : bytes),
       file_content (snd (Sample.run "quebra.txt")) ENTIDADES_TXT = Some content
       /\ content = join [LF] [Sample.RIO_BRANCO ++ py " (LOC)"].
Proof.
  split.
  - destruct (C4_entity_file_lines Sample.render Sample.partial (py "maria.txt")
                (Sample.world "maria.txt") (snd (Sample.run "maria.txt"))
                Sample.TEXT_MARIA Sample.nlp Sample.doc_maria)
      as (content & lines & H1 & _ & H3 & H4 & H5);
      [vm_compute; reflexivity ..|].
    destruct H5 as [H5 H6]; [vm_compute; reflexivity|].
    exists content. split; [exact H1|]. split; [|exact H6].
    rewrite H5. vm_compute in H3. by injection H3 as <-.
  - destruct (C4_entity_file_lines Sample.render Sample.partial (py "quebra.txt")
                (Sample.world "quebra.txt") (snd (Sample.run "quebra.txt"))
                Sample.TEXT_QUEBRA Sample.nlp Sample.doc_quebra)
      as (content & lines & H1 & _ & H3 & H4 & _);
      [vm_compute; reflexivity ..|].
    exists content. split; [exact H1|].
    rewrite H4. vm_compute in H3. by injection H3 as <-.
Defined.

(** C5 as first stated fails on the same input: one noun phrase, two
    lines. *)
Lemma C5_noun_chunk_line_count_counterexample :
  input_text (Sample.world "quebra.txt") (py "quebra.txt") = Some Sample.TEXT_QUEBRA
  /\ Sample.nlp Sample.TEXT_QUEBRA = Ok Sample.doc_quebra
  /\ fst (Sample.run "quebra.txt") = Ok tt
  /\ length (Doc.noun_chunks Sample.doc_quebra) = 1%nat
  /\ exists content,
       file_content (snd (Sample.run "quebra.txt")) NOUN_CHUNKS_TXT = Some content
       /\ content = py "Rio" ++ [LF] ++ py "Branco"
       /\ line_count content = 2%nat
       /\ line_count content <> length (Doc.noun_chunks Sample.doc_quebra).
Proof.
  repeat split; try (vm_compute; reflexivity).
  exists (py "Rio" ++ [LF] ++ py "Branco").
  repeat split; try (vm_compute; reflexivity).
  vm_compute. discriminate.
Qed.

(** C5, amended, on a text with two noun phrases, and on the text of the
    broken name, where the file is still the join of the texts. *)
Lemma C5_noun_chunk_file_lines_witness :
  (exists (content : bytes),
     file_content (snd (Sample.run "maria.txt")) NOUN_CHUNKS_TXT = Some content
     /\ splitlines content = [py "Maria"; py "Lisboa"]
     /\ line_count content = 2%nat)
  /\ exists (content : bytes),
       file_content (snd (Sample.run "quebra.txt")) NOUN_CHUNKS_TXT = Some content
       /\ content = join [LF] [Sample.RIO_BRANCO].
Proof.
  split.
  - destruct (C5_noun_chunk_file_lines Sample.render Sample.partial (py "maria.txt")
                (Sample.world "maria.txt") (snd (Sample.run "maria.txt"))
                Sample.TEXT_MARIA Sample.nlp Sample.doc_maria)
      as (content & lines & H1 & H3 & H4 & H5);
      [vm_compute; reflexivity ..|].
    destruct H5 as [H5 H6]; [vm_compute; reflexivity|vm_compute; discriminate|].
    exists content. split; [exact H1|]. split; [|exact H6].
    rewrite H5. vm_compute in H3. by injection H3 as <-.
  - destruct (C5_noun_chunk_file_lines Sample.render Sample.partial (py "quebra.txt")
                (Sample.world "quebra.txt") (snd (Sample.run "quebra.txt"))
                Sample.TEXT_QUEBRA Sample.nlp Sample.doc_quebra)
      as (content & lines & H1 & H3 & H4 & _);
      [vm_compute; reflexivity ..|].
    exists content. split; [exact H1|].
    rewrite H4. vm_compute in H3. by injection H3 as <-.
Defined.

(** C7 as first stated fails: with a renderer that marks its output with
    the identifier drawn, as the real one does, two runs in a row over
    [gato.txt] both return normally, on the same input with the same
    model, and leave two different HTML files. *)
Lemma C7_html_not_reproduced_counterexample :
  fst (Sample.run_marked "gato.txt") = Ok tt
  /\ fst (Sample.rerun_marked "gato.txt") = Ok tt
  /\ input_text (snd (Sample.run_marked "gato.txt")) (py "gato.txt")
     = input_text (Sample.world "gato.txt") (py "gato.txt")
  /\ spacy_load_result (host (snd (Sample.run_marked "gato.txt"))) MODEL_NAME
     = spacy_load_result (host (Sample.world "gato.txt")) MODEL_NAME
  /\ file_content (snd (Sample.run_marked "gato.txt")) VISUALIZACAO_HTML
     = Some (py "<svg id='5f0c9a0-0'></svg>")
  /\ file_content (snd (Sample.rerun_marked "gato.txt")) VISUALIZACAO_HTML
     = Some (py "<svg id='5f0c9a1-0'></svg>")
  /\ file_content (snd (Sample.rerun_marked "gato.txt")) VISUALIZACAO_HTML
     <> file_content (snd (Sample.run_marked "gato.txt")) VISUALIZACAO_HTML.
Proof.
  repeat split; try (vm_compute; reflexivity).
  vm_compute. discriminate.
Qed.

(** C7, amended, on the sample machine: the run on [gato.txt], then the
    same run again. *)
Lemma C7_second_run_rewrites_outputs_witness :
  exists (r2 : result unit) (w2 : World),
    process_text_file Sample.render Sample.partial (py "gato.txt")
      (snd (Sample.run "gato.txt")) = (r2, w2)
    /\ forall out, out ∈ [TOKENS_CSV; NOUN_CHUNKS_TXT; ENTIDADES_TXT] ->
         file_content w2 out = file_content (snd (Sample.run "gato.txt")) out.
Proof.
  destruct (C7_second_run_rewrites_outputs Sample.render Sample.partial (py "gato.txt")
              (Sample.world "gato.txt") (snd (Sample.run "gato.txt")))
    as (r2 & w2 & H1 & H2 & _);
    [vm_compute; reflexivity ..|].
  exists r2, w2. auto.
Defined.

(** C8 on two runs over [gato.txt], the second on a machine that already
    holds an old token table. *)
Lemma C8_flags_boolean_and_deterministic_witness :
  exists (content : bytes),
    file_content (snd (Sample.run "gato.txt")) TOKENS_CSV = Some content
    /\ file_content (snd (Sample.run_used "gato.txt")) TOKENS_CSV = Some content.
Proof.
  destruct (C8_flags_boolean_and_deterministic Sample.render Sample.partial
              (py "gato.txt") (py "gato.txt")
              (Sample.world "gato.txt") (snd (Sample.run "gato.txt"))
              (Sample.world_used "gato.txt") (snd (Sample.run_used "gato.txt"))
              Sample.TEXT_GATO Sample.nlp Sample.doc_gato)
    as (s & content & rows & H1 & _ & _ & _ & _ & _ & _ & _ & H9);
    [vm_compute; reflexivity ..|].
  exists content. auto.
Defined.

(** C9 on the sentence [O gato correu.]: one noun phrase, no entity. *)
Lemma C9_join_without_final_newline_witness :
  file_content (snd (Sample.run "gato.txt")) NOUN_CHUNKS_TXT = Some (py "O gato")
  /\ file_content (snd (Sample.run "gato.txt")) ENTIDADES_TXT = Some [].
Proof.
  destruct (C9_join_without_final_newline Sample.render Sample.partial (py "gato.txt")
              (Sample.world "gato.txt") (snd (Sample.run "gato.txt"))
              Sample.TEXT_GATO Sample.nlp Sample.doc_gato)
    as (cc & ec & cl & el & H1 & H2 & H3 & _ & H5 & _ & _ & _ & _ & _ & _ & _ & H13);
    [vm_compute; reflexivity ..|].
  split.
  - rewrite H1, H5. vm_compute in H3. by injection H3 as <-.
  - rewrite H2. f_equal. by apply H13.
Defined.

(** C10 on a file in Latin-1 and on a directory. *)
Lemma C10_unreadable_input_raises_witness :
  Sample.run "latin1.txt"
  = (Raise UnicodeDecodeError,
     log (EvOpenRead (py "latin1.txt")) (log (EvSpacyLoad MODEL_NAME) (Sample.world "latin1.txt"))).
Proof.
  destruct (C10_unreadable_input_raises Sample.executable Sample.spawn Sample.render
              Sample.partial (py "latin1.txt") (Sample.world "latin1.txt") Sample.nlp)
    as (e & H1 & H2 & _);
    [vm_compute; reflexivity ..|].
  vm_compute in H2. destruct H2 as [_ ->]. exact H1.
Defined.


(** * Further properties of the script *)

(** ** The loop over the tokens *)

(** X1.  The loop over [doc] never raises [KeyError] and leaves the
    eight lists of [analyses] with one entry per token each, under the
    eight keys in the order of the header; so [pd.DataFrame] never
    refuses them for unequal lengths, and its rows are the tokens' rows
    in order. *)
Theorem X1_columns_stay_aligned (tokens : list Token.t) :
  exists analyses : dict,
    collect_tokens analyses_init tokens = Some analyses
    /\ map fst analyses = header
    /\ Forall (fun column => length (snd column) = length tokens) analyses
    /\ pd_DataFrame analyses = Ok (DataFrame.mk header (map token_row tokens)).
Proof.
  exists (analyses_after tokens).
  split; [apply collect_tokens_init|].
  split; [reflexivity|].
  split; [|apply pd_DataFrame_analyses_after].
  unfold analyses_after. repeat constructor; cbn [snd]; apply length_map.
Qed.

(** ** The start of the script *)

Lemma import_Ok_inv (module : pystr) (w w1 : World) :
  import_ module w = (Ok tt, w1) ->
  import_module (host w) module = None /\ w1 = log (EvImport module) w.
Proof.
  unfold import_. cbn [host log].
  destruct (import_module (host w) module); [discriminate|]. by intros [= <-].
Qed.

Lemma import_Raise_inv (module : pystr) (w w1 : World) (e : exn) :
  import_ module w = (Raise e, w1) ->
  import_module (host w) module = Some e /\ w1 = log (EvImport module) w.
Proof.
  unfold import_. cbn [host log].
  destruct (import_module (host w) module); [|discriminate]. by intros [= <- <-].
Qed.

Lemma bind_inv {A B} (c : M A) (k : A -> M B) (w w' : World) (r : result B) :
  bind c k w = (r, w') ->
  (exists a w1, c w = (Ok a, w1) /\ k a w1 = (r, w'))
  \/ (exists e, c w = (Raise e, w') /\ r = Raise e).
Proof.
  unfold bind. destruct (c w) as [[a|e] w1].
  - intros H. left. eauto.
  - intros [= <- <-]. right. eauto.
Qed.

(** What the imports at the top of the file come to. *)
Lemma module_imports_inv (w w1 : World) (r : result unit) :
  module_imports w = (r, w1) ->
  exists ms : list pystr,
    ms `prefix_of` imported_modules
    /\ w1 = mkWorld (host w) (stdin w) (trace w ++ map EvImport ms)
    /\ match r with
       | Ok _ => ms = imported_modules
                 /\ Forall (fun m => import_module (host w) m = None) imported_modules
       | Raise e => exists m, last ms = Some m /\ import_module (host w) m = Some e
       end.
Proof.
  unfold module_imports, imported_modules. intros H.
  repeat match type of H with
         | bind _ _ _ = _ =>
             apply bind_inv in H as [([] & wi & Hi & H)|(e & Hi & ->)];
             [apply import_Ok_inv in Hi as [? ->]
             |apply import_Raise_inv in Hi as [? ->]]
         end.
  - destruct r as [[]|e].
    + apply import_Ok_inv in H as [? ->].
      eexists. split; [reflexivity|]. split.
      * unfold log. cbn [host stdin trace map]. by rewrite <- !app_assoc.
      * split; [reflexivity|]. repeat constructor; assumption.
    + apply import_Raise_inv in H as [? ->].
      exists [py "spacy"; py "spacy.displacy"; py "os"; py "pandas"; py "subprocess"; py "sys"].
      split; [reflexivity|]. split.
      * unfold log. cbn [host stdin trace map]. by rewrite <- !app_assoc.
      * eexists. split; [reflexivity|]. assumption.
  - exists [py "spacy"; py "spacy.displacy"; py "os"; py "pandas"; py "subprocess"].
    split; [by eexists|]. split.
    + unfold log. cbn [host stdin trace map]. by rewrite <- !app_assoc.
    + eauto.
  - exists [py "spacy"; py "spacy.displacy"; py "os"; py "pandas"]. split; [by eexists|]. split.
    + unfold log. cbn [host stdin trace map]. by rewrite <- !app_assoc.
    + eauto.
  - exists [py "spacy"; py "spacy.displacy"; py "os"]. split; [by eexists|]. split.
    + unfold log. cbn [host stdin trace map]. by rewrite <- !app_assoc.
    + eauto.
  - exists [py "spacy"; py "spacy.displacy"]. split; [by eexists|]. split.
    + unfold log. cbn [host stdin trace map]. by rewrite <- !app_assoc.
    + eauto.
  - exists [py "spacy"]. split; [by eexists|]. split; [reflexivity|]. eauto.
Qed.

(** X4.  In a run of the script the imports at the top of the file have
    succeeded when [ensure_dependencies] starts, so its own two imports
    succeed as well and its checks can fail at [spacy.load] only: their
    outcome is the outcome of loading the model. *)
Theorem X4_script_checks_fail_only_at_load (w w1 : World) :
  module_imports w = (Ok tt, w1) ->
  host w1 = host w
  /\ probe_dependencies w1
     = (match spacy_load_result (host w) MODEL_NAME with
        | Ok _ => Ok tt
        | Raise e => Raise e
        end,
        mkWorld (host w) (stdin w)
          (trace w1 ++ [EvImport (py "spacy"); EvImport (py "pandas");
                        EvSpacyLoad MODEL_NAME])).
Proof.
  intros H.
  destruct (module_imports_inv _ _ _ H) as (ms & _ & -> & -> & Hall).
  split; [reflexivity|].
  assert (import_module (host w) (py "spacy") = None) as Hspacy.
  { rewrite Forall_forall in Hall. apply Hall. unfold imported_modules. set_solver. }
  assert (import_module (host w) (py "pandas") = None) as Hpandas.
  { rewrite Forall_forall in Hall. apply Hall. unfold imported_modules. set_solver. }
  unfold probe_dependencies, bind, import_, spacy_load, log. cbn [host stdin trace].
  rewrite Hspacy. cbn [host stdin trace]. rewrite Hpandas. cbn [host stdin trace].
  destruct (spacy_load_result (host w) MODEL_NAME); unfold ret; by rewrite <- !app_assoc.
Qed.

Section Further.

Variable sys_executable : pystr.
Variable spawn : list pystr -> Host -> spawn_outcome * Host.
Variable displacy_render : pystr -> Doc.t -> result pystr.
Variable csv_partial : pystr -> bytes.

(** X2.  When the model finds no token (as for an empty input), the
    token table is still written and holds the header line alone. *)
Theorem X2_empty_document_header_only (file_path : pystr) (w w' : World)
    (text : pystr) (nlp : Language) (doc : Doc.t) :
  input_text w file_path = Some text ->
  spacy_load_result (host w) MODEL_NAME = Ok nlp ->
  nlp text = Ok doc ->
  process_text_file displacy_render csv_partial file_path w = (Ok tt, w') ->
  Doc.tokens doc = [] ->
  file_content w' TOKENS_CSV = Some (HEADER_LINE ++ [LF])
  /\ (splitlines <$> file_content w' TOKENS_CSV) = Some [HEADER_LINE].
Proof.
  intros Hin Hload Hdoc Hrun Hnil.
  destruct (run_exported _ _ _ _ _ _ _ _ Hin Hload Hdoc Hrun)
    as (b1 & b2 & b3 & b4 & [_ _ He1 _ _ _ _ ->]).
  unfold tokens_csv_text, csv_text in He1. rewrite Hnil in He1.
  cbn [map concat] in He1. rewrite app_nil_r, utf8_encode_header_row in He1.
  injection He1 as <-. rewrite after_export_tokens_csv.
  split; reflexivity.
Qed.

(** X3.  When one of the imports at the top of the file fails, the
    script ends there with that exception and status 1:
    [ensure_dependencies] is not reached, so no command is run to install
    what is missing, nothing is asked and no file is touched; the trace
    holds the imports tried and nothing else. *)
Theorem X3_failed_import_ends_script (w w1 : World) (e : exn) :
  module_imports w = (Raise e, w1) ->
  script sys_executable spawn displacy_render csv_partial w = (Raise e, w1)
  /\ exit_status (fst (script sys_executable spawn displacy_render csv_partial w)) = 1%Z
  /\ host w1 = host w
  /\ stdin w1 = stdin w
  /\ exists ms m,
       ms `prefix_of` imported_modules
       /\ trace w1 = trace w ++ map EvImport ms
       /\ last ms = Some m
       /\ import_module (host w) m = Some e.
Proof.
  intros H.
  assert (script sys_executable spawn displacy_render csv_partial w = (Raise e, w1)) as Hs
    by (unfold script; by apply bind_Raise).
  split; [exact Hs|]. split; [by rewrite Hs|].
  destruct (module_imports_inv _ _ _ H) as (ms & Hpre & -> & m & Hlast & Hm).
  split; [reflexivity|]. split; [reflexivity|].
  exists ms, m. done.
Qed.

(** X5.  When the standard input is at its end, [main] stops at the
    prompt with [EOFError] (status 1): [process_text_file] is not called,
    and the host is as [ensure_dependencies] left it. *)
Theorem X5_end_of_input_at_prompt (w w1 : World) :
  ensure_dependencies sys_executable spawn w = (Ok tt, w1) ->
  stdin w1 = [] ->
  main sys_executable spawn displacy_render csv_partial w
  = (Raise EOFError, log (EvPrompt PROMPT) w1)
  /\ exit_status (fst (main sys_executable spawn displacy_render csv_partial w)) = 1%Z.
Proof.
  intros He Hin.
  assert (main sys_executable spawn displacy_render csv_partial w
          = (Raise EOFError, log (EvPrompt PROMPT) w1)) as Hm.
  { unfold main. rewrite (bind_Ok _ _ _ _ _ He).
    unfold bind, input. cbn [stdin log]. by rewrite Hin. }
  split; [exact Hm|]. by rewrite Hm.
Qed.

End Further.

(** ** What a run leaves alone *)

Lemma confined_refl (p : pystr) (w : World) : confined p w w.
Proof. split; [|done]. exists []. by rewrite app_nil_r. Qed.

Lemma confined_trans (p : pystr) (w1 w2 w3 : World) :
  confined p w1 w2 -> confined p w2 w3 -> confined p w1 w3.
Proof.
  intros ((evs & Ht & Hevs) & Hb & Hc & Hd) ((evs' & Ht' & Hevs') & Hb' & Hc' & Hd').
  repeat split.
  - exists (evs ++ evs'). split; [by rewrite Ht', Ht, app_assoc|].
    by rewrite forallb_app, Hevs, Hevs'.
  - by rewrite Hb', Hb.
  - by rewrite Hc', Hc.
  - by rewrite Hd', Hd.
Qed.

Lemma confined_log (p : pystr) (ev : event) (w : World) :
  own_event p ev = true -> confined p w (log ev w).
Proof.
  intros Hev. split; [|done]. exists [ev]. split; [reflexivity|].
  cbn [forallb]. by rewrite Hev.
Qed.

Lemma confined_drawn (p : pystr) (w : World) : confined p w (drawn w).
Proof. split; [|done]. exists []. by rewrite app_nil_r. Qed.

Lemma confined_bind {A B} (p : pystr) (c : M A) (k : A -> M B) :
  (forall w, confined p w (snd (c w))) ->
  (forall a w, confined p w (snd (k a w))) ->
  forall w, confined p w (snd (bind c k w)).
Proof.
  intros Hc Hk w. unfold bind. specialize (Hc w).
  destruct (c w) as [[a|e] w1]; cbn [snd] in *; [|done].
  by apply confined_trans with w1.
Qed.

(** A write adds the opening of its target and touches nothing but the
    files, whether it succeeds or not. *)
Lemma confined_write_text (p : pystr) (partial : pystr -> bytes) (path s : pystr)
    (w : World) :
  path ∈ output_files ->
  confined p w (snd (write_text partial path s w)).
Proof.
  intros Hpath. unfold write_text. cbn [host log].
  assert (own_event p (EvOpenWrite path) = true) as Hev
    by (by apply bool_decide_eq_true_2).
  assert (forall (f : gmap pystr node),
            confined p w (set_host (set_fs f (host w)) (log (EvOpenWrite path) w)))
    as Hstore.
  { intros f. split; [|done]. exists [EvOpenWrite path]. split; [reflexivity|].
    cbn [forallb]. by rewrite Hev. }
  destruct (fs (host w) !! path) as [[r [|] content|]|];
    try destruct (utf8_encode s); cbn [snd];
    first [apply Hstore | by apply confined_log].
Qed.

Lemma output_files_elem :
  TOKENS_CSV ∈ output_files /\ NOUN_CHUNKS_TXT ∈ output_files
  /\ ENTIDADES_TXT ∈ output_files /\ VISUALIZACAO_HTML ∈ output_files.
Proof. unfold output_files. rewrite !elem_of_cons. tauto. Qed.

Section Frame.

Variable displacy_render : pystr -> Doc.t -> result pystr.
Variable csv_partial : pystr -> bytes.

(** X6.  Whatever its outcome, a run of [process_text_file] opens for
    writing only files under its four output names and for reading only
    the path it was given, loads only its model and prints only its two
    messages; it starts no command, imports nothing and does not prompt,
    and it leaves as they were what is installed on the host and what
    waits on the standard input. *)
Theorem X6_opens_only_input_and_targets (file_path : pystr) (w : World) :
  let w' := snd (process_text_file displacy_render csv_partial file_path w) in
  (exists evs, trace w' = trace w ++ evs
               /\ forallb (own_event file_path) evs = true)
  /\ import_module (host w') = import_module (host w)
  /\ spacy_load_result (host w') = spacy_load_result (host w)
  /\ stdin w' = stdin w.
Proof.
  cbv zeta.
  change (confined file_path w
            (snd (process_text_file displacy_render csv_partial file_path w))).
  destruct output_files_elem as (Ho1 & Ho2 & Ho3 & Ho4).
  revert w. unfold process_text_file.
  apply confined_bind; [intros w; apply confined_refl|].
  intros [|]; cbn [negb]; [|intros w; by apply confined_log].
  apply confined_bind.
  { intros w. apply (confined_log file_path (EvSpacyLoad MODEL_NAME)).
    by apply bool_decide_eq_true_2. }
  intros nlp. apply confined_bind.
  { intros w.
    assert (confined file_path w (log (EvOpenRead file_path) w)) as Hread
      by (apply confined_log; by apply bool_decide_eq_true_2).
    unfold read_text. cbn [host log].
    destruct (fs (host w) !! file_path) as [[[|] wr content|]|];
      try destruct (utf8_decode content); exact Hread. }
  intros text. apply confined_bind.
  { apply confined_bind; [intros w; by apply confined_log|].
    intros _ w. apply confined_refl. }
  intros doc. apply confined_bind.
  { intros w. destruct (collect_tokens analyses_init (Doc.tokens doc));
      apply confined_refl. }
  intros analyses. apply confined_bind; [intros w; apply confined_refl|].
  intros df. apply confined_bind; [intros w; by apply confined_write_text|].
  intros _. apply confined_bind; [intros w; by apply confined_write_text|].
  intros _. apply confined_bind; [intros w; by apply confined_write_text|].
  intros _. apply confined_bind.
  { apply confined_bind; [intros w; by apply confined_log|].
    intros _. apply confined_bind; [intros w; apply confined_drawn|].
    intros id_prefix w. apply confined_refl. }
  intros html. apply confined_bind; [intros w; by apply confined_write_text|].
  intros _ w. by apply confined_log.
Qed.

(** ** Failures on the way *)

(** X7.  On an existing path, when the model cannot be loaded the run
    raises the error of [spacy.load] before the input is opened, and when
    the model raises on the text the run raises that error before any
    target is opened: in both cases the host is left as it was. *)
Theorem X7_failure_before_export_writes_nothing (file_path : pystr) (w : World) :
  path_exists w file_path = true ->
  (forall e,
     spacy_load_result (host w) MODEL_NAME = Raise e ->
     process_text_file displacy_render csv_partial file_path w
     = (Raise e, log (EvSpacyLoad MODEL_NAME) w))
  /\ (forall nlp text e,
        spacy_load_result (host w) MODEL_NAME = Ok nlp ->
        input_text w file_path = Some text ->
        nlp text = Raise e ->
        process_text_file displacy_render csv_partial file_path w
        = (Raise e,
           log (EvNlp text) (log (EvOpenRead file_path) (log (EvSpacyLoad MODEL_NAME) w)))).
Proof.
  intros Hex. split.
  - intros e Hload. unfold process_text_file.
    rewrite (bind_Ok _ _ _ _ _ (os_path_exists_true _ _ Hex)). cbn [negb].
    apply bind_Raise. unfold spacy_load. cbn [host log]. by rewrite Hload.
  - intros nlp text e Hload Hin Hnlp. unfold process_text_file.
    rewrite (bind_Ok _ _ _ _ _ (os_path_exists_true _ _ Hex)). cbn [negb].
    rewrite (bind_Ok _ _ w (log (EvSpacyLoad MODEL_NAME) w) nlp)
      by (unfold spacy_load; cbn [host log]; by rewrite Hload).
    rewrite (bind_Ok _ _ _ _ _
               (read_text_Ok file_path text (log (EvSpacyLoad MODEL_NAME) w) Hin)).
    apply bind_Raise. unfold call_nlp, bind, emit, lift_result. by rewrite Hnlp.
Qed.

(** X8.  Nothing is rolled back: when the three text files have been
    written and [displacy.render] raises, the run raises that error while
    the token table, the noun phrases and the entities stay written; the
    HTML file is left as it was and the closing message is not printed. *)
Theorem X8_render_failure_keeps_earlier_files (file_path : pystr) (w : World)
    (text : pystr) (nlp : Language) (doc : Doc.t) (e : exn)
    (b_csv b_chunks b_ents : bytes) :
  input_text w file_path = Some text ->
  spacy_load_result (host w) MODEL_NAME = Ok nlp ->
  nlp text = Ok doc ->
  utf8_encode (tokens_csv_text doc) = Some b_csv ->
  utf8_encode (noun_chunks_text doc) = Some b_chunks ->
  utf8_encode (entities_text doc) = Some b_ents ->
  forallb (fun out => writable_target (fs (host w) !! out))
    [TOKENS_CSV; NOUN_CHUNKS_TXT; ENTIDADES_TXT] = true ->
  displacy_render (uuid_hex (host w) 0%nat) doc = Raise e ->
  exists w',
    process_text_file displacy_render csv_partial file_path w = (Raise e, w')
    /\ file_content w' TOKENS_CSV = Some b_csv
    /\ file_content w' NOUN_CHUNKS_TXT = Some b_chunks
    /\ file_content w' ENTIDADES_TXT = Some b_ents
    /\ fs (host w') !! VISUALIZACAO_HTML = fs (host w) !! VISUALIZACAO_HTML
    /\ trace w' = trace w ++ [EvSpacyLoad MODEL_NAME; EvOpenRead file_path; EvNlp text;
                              EvOpenWrite TOKENS_CSV; EvOpenWrite NOUN_CHUNKS_TXT;
                              EvOpenWrite ENTIDADES_TXT; EvRender].
Proof.
  intros Htext Hload Hnlp He1 He2 He3 Hwb Hrender.
  assert (forall out, out ∈ [TOKENS_CSV; NOUN_CHUNKS_TXT; ENTIDADES_TXT] ->
                      writable_target (fs (host w) !! out) = true) as Hw.
  { intros out Hout. rewrite forallb_forall in Hwb. apply Hwb. by apply list_elem_of_In. }
  exists (at_render file_path text b_csv b_chunks b_ents w).
  split.
  { rewrite (process_text_file_at_render displacy_render csv_partial
               file_path w text nlp doc b_csv b_chunks b_ents) by done.
    by rewrite Hrender. }
  unfold at_render.
  split.
  { rewrite file_content_drawn, file_content_log, !file_content_put_ne by discriminate.
    apply file_content_put. }
  split.
  { rewrite file_content_drawn, file_content_log, !file_content_put_ne by discriminate.
    apply file_content_put. }
  split; [rewrite file_content_drawn, file_content_log; apply file_content_put|].
  split.
  { rewrite fs_drawn, host_log. by rewrite !fs_put_ne by discriminate. }
  unfold drawn, put, log, set_host. cbn [trace host stdin]. by rewrite <- !app_assoc.
Qed.

End Frame.

(** ** The order of the effects *)

Lemma read_text_None (path : pystr) (w : World) :
  input_text w path = None ->
  exists e, read_text path w = (Raise e, log (EvOpenRead path) w).
Proof.
  unfold input_text, read_text. cbn [host log].
  destruct (fs (host w) !! path) as [[[|] wr content|]|]; try (intros _; by eexists).
  destruct (utf8_decode content); [discriminate|]. intros _. by eexists.
Qed.

(** Opening a target is recorded whether the write succeeds or not. *)
Lemma write_text_shape (partial : pystr -> bytes) (path s : pystr) (w : World) :
  exists r h,
    write_text partial path s w
    = (r, mkWorld h (stdin w) (trace w ++ [EvOpenWrite path])).
Proof.
  unfold write_text. cbn [host log].
  destruct (fs (host w) !! path) as [[r [|] content|]|];
    try destruct (utf8_encode s); by do 2 eexists.
Qed.

Ltac order_done :=
  cbn [fst snd]; unfold drawn, set_host, log; cbn [trace host stdin];
  rewrite <- ?app_assoc; cbn [app];
  eexists; split; [reflexivity|]; split; [by eexists|];
  split; intros Heq; first [discriminate Heq | reflexivity].

Section Order.

Variable displacy_render : pystr -> Doc.t -> result pystr.
Variable csv_partial : pystr -> bytes.

(** X9.  On an existing path the effects of a run come in one fixed
    order: load the model, open the input, call the model, open the token
    table, the noun-phrase file and the entity file, render, open the
    HTML file, print the closing message.  A run that fails stops
    somewhere along this sequence; the run returns normally exactly when
    the sequence is complete, so the closing message is printed only
    after all four files were written. *)
Theorem X9_effects_in_order (file_path : pystr) (w : World) :
  path_exists w file_path = true ->
  exists evs : list event,
    trace (snd (process_text_file displacy_render csv_partial file_path w)) = trace w ++ evs
    /\ evs `prefix_of` run_events file_path (default [] (input_text w file_path))
    /\ (fst (process_text_file displacy_render csv_partial file_path w) = Ok tt
        <-> evs = run_events file_path (default [] (input_text w file_path))).
Proof.
  intros Hex. unfold process_text_file, run_events.
  rewrite (bind_Ok _ _ _ _ _ (os_path_exists_true _ _ Hex)). cbn [negb].
  destruct (spacy_load_result (host w) MODEL_NAME) as [nlp|e] eqn:Hload.
  2:{ erewrite bind_Raise
        by (unfold spacy_load; cbn [host log]; rewrite Hload; reflexivity).
      order_done. }
  rewrite (bind_Ok _ _ w (log (EvSpacyLoad MODEL_NAME) w) nlp)
    by (unfold spacy_load; cbn [host log]; by rewrite Hload).
  destruct (input_text w file_path) as [text|] eqn:Hin.
  2:{ destruct (read_text_None file_path (log (EvSpacyLoad MODEL_NAME) w) Hin) as [e He].
      rewrite (bind_Raise _ _ _ _ _ He). order_done. }
  rewrite (bind_Ok _ _ _ _ _
             (read_text_Ok file_path text (log (EvSpacyLoad MODEL_NAME) w) Hin)).
  cbn [default].
  destruct (nlp text) as [doc|e] eqn:Hnlp.
  2:{ erewrite bind_Raise
        by (unfold call_nlp, bind, emit, lift_result; rewrite Hnlp; reflexivity).
      order_done. }
  rewrite (bind_Ok _ _ _ (log (EvNlp text) _) doc)
    by (unfold call_nlp, bind, emit, lift_result; by rewrite Hnlp).
  rewrite collect_tokens_init. cbn [from_option].
  rewrite bind_ret, pd_DataFrame_analyses_after, bind_lift_Ok.
  unfold to_csv, open_write.
  match goal with
  | |- context [bind (write_text ?pa ?p ?s) ?k ?W] =>
      destruct (write_text_shape pa p s W) as (r1 & h1 & E1)
  end.
  destruct r1 as [[]|e1]; [|rewrite (bind_Raise _ _ _ _ _ E1); order_done].
  rewrite (bind_Ok _ _ _ _ _ E1).
  match goal with
  | |- context [bind (write_text ?pa ?p ?s) ?k ?W] =>
      destruct (write_text_shape pa p s W) as (r2 & h2 & E2)
  end.
  destruct r2 as [[]|e2]; [|rewrite (bind_Raise _ _ _ _ _ E2); order_done].
  rewrite (bind_Ok _ _ _ _ _ E2).
  match goal with
  | |- context [bind (write_text ?pa ?p ?s) ?k ?W] =>
      destruct (write_text_shape pa p s W) as (r3 & h3 & E3)
  end.
  destruct r3 as [[]|e3]; [|rewrite (bind_Raise _ _ _ _ _ E3); order_done].
  rewrite (bind_Ok _ _ _ _ _ E3).
  match goal with
  | |- context [bind (displacy_render_dep _ ?d) ?k ?W] =>
      destruct (displacy_render (uuid_hex (host W) 0%nat) d) as [html|e] eqn:Hrender
  end.
  2:{ erewrite bind_Raise by (rewrite displacy_render_dep_eq, Hrender; reflexivity).
      order_done. }
  erewrite bind_Ok by (rewrite displacy_render_dep_eq, Hrender; reflexivity).
  match goal with
  | |- context [bind (write_text ?pa ?p ?s) ?k ?W] =>
      destruct (write_text_shape pa p s W) as (r4 & h4 & E4)
  end.
  destruct r4 as [[]|e4]; [|rewrite (bind_Raise _ _ _ _ _ E4); order_done].
  rewrite (bind_Ok _ _ _ _ _ E4).
  unfold print, emit. order_done.
Qed.

(** ** An input named like an output *)

Lemma after_export_fs (p text : pystr) (b1 b2 b3 b4 : bytes) (w : World) :
  let h := host (after_export p text b1 b2 b3 b4 w) in
  fs h !! TOKENS_CSV = Some (written (fs (host w) !! TOKENS_CSV) b1)
  /\ fs h !! NOUN_CHUNKS_TXT = Some (written (fs (host w) !! NOUN_CHUNKS_TXT) b2)
  /\ fs h !! ENTIDADES_TXT = Some (written (fs (host w) !! ENTIDADES_TXT) b3)
  /\ fs h !! VISUALIZACAO_HTML = Some (written (fs (host w) !! VISUALIZACAO_HTML) b4).
Proof.
  cbn zeta. rewrite host_after_export.
  repeat split; fs_through; rewrite fs_host_put_eq; by fs_through.
Qed.

Lemma input_text_written (w w' : World) (path text s : pystr) (bs : bytes) :
  input_text w path = Some text ->
  fs (host w') !! path = Some (written (fs (host w) !! path) bs) ->
  utf8_encode s = Some bs ->
  input_text w' path = Some (universal_newlines s).
Proof.
  unfold input_text. intros Hin -> Henc.
  destruct (fs (host w) !! path) as [[[|] wr content|]|]; try discriminate.
  cbn [written]. by rewrite (utf8_decode_encode _ _ Henc).
Qed.

(** X10.  The input is read before anything is written, and nothing
    protects it: when the path given is the name of one of the four
    targets, the run succeeds on the text the file held and replaces the
    file with the output of that name, so that the text analysed is lost
    and a later run on the same path reads the output instead. *)
Theorem X10_input_named_like_target_is_replaced (file_path : pystr) (w w' : World)
    (text : pystr) (nlp : Language) (doc : Doc.t) :
  input_text w file_path = Some text ->
  spacy_load_result (host w) MODEL_NAME = Ok nlp ->
  nlp text = Ok doc ->
  process_text_file displacy_render csv_partial file_path w = (Ok tt, w') ->
  file_path ∈ output_files ->
  exists s : pystr,
    input_text w' file_path = Some (universal_newlines s)
    /\ (file_content w' file_path ≫= utf8_decode) = Some s
    /\ (file_path = TOKENS_CSV -> s = tokens_csv_text doc)
    /\ (file_path = NOUN_CHUNKS_TXT -> s = noun_chunks_text doc)
    /\ (file_path = ENTIDADES_TXT -> s = entities_text doc)
    /\ (file_path = VISUALIZACAO_HTML ->
        displacy_render (uuid_hex (host w) 0%nat) doc = Ok s).
Proof.
  intros Hin Hload Hdoc Hrun Hout.
  destruct (run_exported _ _ _ _ _ _ _ _ Hin Hload Hdoc Hrun)
    as (b1 & b2 & b3 & b4 & [_ _ He1 He2 He3 (html & Hrender & He4) _ ->]).
  destruct (after_export_fs file_path text b1 b2 b3 b4 w) as (F1 & F2 & F3 & F4).
  cbn zeta in *.
  unfold output_files in Hout. rewrite !elem_of_cons, elem_of_nil in Hout.
  destruct Hout as [->|[->|[->|[->|[]]]]].
  - exists (tokens_csv_text doc).
    split; [by apply (input_text_written w _ _ text _ b1)|].
    rewrite after_export_tokens_csv. cbn. rewrite (utf8_decode_encode _ _ He1).
    repeat split; try done; intros Hne; discriminate Hne.
  - exists (noun_chunks_text doc).
    split; [by apply (input_text_written w _ _ text _ b2)|].
    rewrite after_export_noun_chunks. cbn. rewrite (utf8_decode_encode _ _ He2).
    repeat split; try done; intros Hne; discriminate Hne.
  - exists (entities_text doc).
    split; [by apply (input_text_written w _ _ text _ b3)|].
    rewrite after_export_entidades. cbn. rewrite (utf8_decode_encode _ _ He3).
    repeat split; try done; intros Hne; discriminate Hne.
  - exists html.
    split; [by apply (input_text_written w _ _ text _ b4)|].
    rewrite after_export_html. cbn. rewrite (utf8_decode_encode _ _ He4).
    repeat split; try done; intros Hne; discriminate Hne.
Qed.

End Order.

(** ** The further properties on the sample machines *)

(** X2 on an empty file, for which the sample model gives an empty
    document. *)
Lemma X2_empty_document_header_only_witness :
  file_content (snd (Sample.run "vazio.txt")) TOKENS_CSV = Some (HEADER_LINE ++ [LF]).
Proof.
  apply (X2_empty_document_header_only Sample.render Sample.partial (py "vazio.txt")
           (Sample.world "vazio.txt") (snd (Sample.run "vazio.txt"))
           [] Sample.nlp (Doc.mk [] [] []));
    vm_compute; reflexivity.
Defined.

(** X3 on a machine without spaCy. *)
Lemma X3_failed_import_ends_script_witness :
  script Sample.executable Sample.spawn Sample.render Sample.partial
    (mkWorld Sample.machine_no_spacy [py "gato.txt"] [])
  = (Raise ModuleNotFoundError,
     mkWorld Sample.machine_no_spacy [py "gato.txt"] [EvImport (py "spacy")]).
Proof.
  apply (X3_failed_import_ends_script Sample.executable Sample.spawn Sample.render
           Sample.partial (mkWorld Sample.machine_no_spacy [py "gato.txt"] [])).
  vm_compute. reflexivity.
Defined.

(** X4 on the sample machine. *)
Lemma X4_script_checks_fail_only_at_load_witness :
  fst (probe_dependencies (snd (module_imports (Sample.world "gato.txt")))) = Ok tt.
Proof.
  destruct (X4_script_checks_fail_only_at_load (Sample.world "gato.txt")
              (snd (module_imports (Sample.world "gato.txt")))) as [_ H];
    [vm_compute; reflexivity|].
  rewrite H. reflexivity.
Defined.

(** X5 with nothing on the standard input. *)
Lemma X5_end_of_input_at_prompt_witness :
  fst (main Sample.executable Sample.spawn Sample.render Sample.partial
         (mkWorld Sample.machine [] [])) = Raise EOFError.
Proof.
  destruct (X5_end_of_input_at_prompt Sample.executable Sample.spawn Sample.render
              Sample.partial (mkWorld Sample.machine [] [])
              (snd (ensure_dependencies Sample.executable Sample.spawn
                      (mkWorld Sample.machine [] [])))) as [H _];
    [vm_compute; reflexivity ..|].
  rewrite H. reflexivity.
Defined.

(** X7 on a machine without the model. *)
Lemma X7_failure_before_export_writes_nothing_witness :
  process_text_file Sample.render Sample.partial (py "gato.txt")
    (mkWorld Sample.machine_bare [] [])
  = (Raise OSError, mkWorld Sample.machine_bare [] [EvSpacyLoad MODEL_NAME]).
Proof.
  destruct (X7_failure_before_export_writes_nothing Sample.render Sample.partial
              (py "gato.txt") (mkWorld Sample.machine_bare [] [])) as [H _];
    [vm_compute; reflexivity|].
  apply (H OSError). reflexivity.
Defined.

(** X8 with a renderer that raises [ValueError]. *)
Lemma X8_render_failure_keeps_earlier_files_witness :
  exists w',
    process_text_file Sample.render_failing Sample.partial (py "gato.txt")
      (Sample.world "gato.txt") = (Raise ValueError, w')
    /\ file_content w' NOUN_CHUNKS_TXT = Some (py "O gato")
    /\ fs (host w') !! VISUALIZACAO_HTML = None.
Proof.
  destruct (X8_render_failure_keeps_earlier_files Sample.render_failing Sample.partial
              (py "gato.txt") (Sample.world "gato.txt") Sample.TEXT_GATO Sample.nlp
              Sample.doc_gato ValueError
              (default [] (utf8_encode (tokens_csv_text Sample.doc_gato)))
              (py "O gato") [])
    as (w' & H1 & _ & H3 & _ & H5 & _);
    [vm_compute; reflexivity ..|].
  exists w'. split; [exact H1|]. split; [exact H3|]. rewrite H5. vm_compute. reflexivity.
Defined.

(** X9 on the sample machine. *)
Lemma X9_effects_in_order_witness :
  exists evs : list event,
    trace (snd (Sample.run "gato.txt")) = trace (Sample.world "gato.txt") ++ evs
    /\ evs `prefix_of` run_events (py "gato.txt") Sample.TEXT_GATO.
Proof.
  destruct (X9_effects_in_order Sample.render Sample.partial (py "gato.txt")
              (Sample.world "gato.txt")) as (evs & H1 & H2 & _);
    [vm_compute; reflexivity|].
  exists evs. split; [exact H1|exact H2].
Defined.

(** X10 on a machine where the text was saved as [noun_chunks.txt]. *)
Lemma X10_input_named_like_target_is_replaced_witness :
  exists s : pystr,
    input_text
      (snd (process_text_file Sample.render Sample.partial NOUN_CHUNKS_TXT
              (mkWorld Sample.machine_alias [] [])))
      NOUN_CHUNKS_TXT = Some (universal_newlines s)
    /\ s = py "Maria" ++ [LF] ++ py "Lisboa".
Proof.
  destruct (X10_input_named_like_target_is_replaced Sample.render Sample.partial
              NOUN_CHUNKS_TXT (mkWorld Sample.machine_alias [] [])
              (snd (process_text_file Sample.render Sample.partial NOUN_CHUNKS_TXT
                      (mkWorld Sample.machine_alias [] [])))
              Sample.TEXT_MARIA Sample.nlp Sample.doc_maria)
    as (s & H1 & _ & _ & H4 & _);
    [vm_compute; reflexivity ..| |].
  - unfold output_files. apply list_elem_of_further, list_elem_of_here.
  - exists s. split; [exact H1|]. rewrite H4 by reflexivity. vm_compute. reflexivity.
Defined.

(** ** A target that cannot be opened *)

Lemma write_text_unwritable (partial : pystr -> bytes) (path s : pystr) (w : World) :
  writable_target (fs (host w) !! path) = false ->
  exists e,
    write_text partial path s w = (Raise e, log (EvOpenWrite path) w)
    /\ (e = IsADirectoryError \/ e = PermissionError).
Proof.
  unfold write_text, writable_target. cbn [host log].
  destruct (fs (host w) !! path) as [[r [|] content|]|]; try discriminate; intros _.
  - exists PermissionError. by split; [|right].
  - exists IsADirectoryError. by split; [|left].
Qed.

Section Blocked.

Variable displacy_render : pystr -> Doc.t -> result pystr.
Variable csv_partial : pystr -> bytes.

(** X11.  The files are written one after the other and a failure stops
    the run where it occurs: when [noun_chunks.txt] cannot be opened for
    writing (it is a directory, or a file that may not be written), the
    run raises the error of [open] after the token table has been
    written; the noun-phrase, entity and HTML targets are left as they
    were and nothing is rendered. *)
Theorem X11_unwritable_target_stops_the_export (file_path : pystr) (w : World)
    (text : pystr) (nlp : Language) (doc : Doc.t) (b_csv : bytes) :
  input_text w file_path = Some text ->
  spacy_load_result (host w) MODEL_NAME = Ok nlp ->
  nlp text = Ok doc ->
  utf8_encode (tokens_csv_text doc) = Some b_csv ->
  writable_target (fs (host w) !! TOKENS_CSV) = true ->
  writable_target (fs (host w) !! NOUN_CHUNKS_TXT) = false ->
  exists e w',
    process_text_file displacy_render csv_partial file_path w = (Raise e, w')
    /\ (e = IsADirectoryError \/ e = PermissionError)
    /\ file_content w' TOKENS_CSV = Some b_csv
    /\ (forall out, out ∈ [NOUN_CHUNKS_TXT; ENTIDADES_TXT; VISUALIZACAO_HTML] ->
                    fs (host w') !! out = fs (host w) !! out)
    /\ trace w' = trace w ++ [EvSpacyLoad MODEL_NAME; EvOpenRead file_path; EvNlp text;
                              EvOpenWrite TOKENS_CSV; EvOpenWrite NOUN_CHUNKS_TXT].
Proof.
  intros Htext Hload Hnlp He1 Hw1 Hw2.
  set (w1 := put TOKENS_CSV b_csv
               (log (EvNlp text)
                  (log (EvOpenRead file_path)
                     (log (EvSpacyLoad MODEL_NAME) w)))).
  destruct (write_text_unwritable (fun _ => []) NOUN_CHUNKS_TXT (noun_chunks_text doc) w1)
    as (e & Hfail & He).
  { subst w1. by rewrite fs_put_ne, !host_log by discriminate. }
  exists e, (log (EvOpenWrite NOUN_CHUNKS_TXT) w1).
  split.
  { unfold process_text_file.
    rewrite (bind_Ok _ _ _ _ _ (os_path_exists_true _ _ (input_text_exists _ _ _ Htext))).
    cbn [negb].
    rewrite (bind_Ok _ _ w (log (EvSpacyLoad MODEL_NAME) w) nlp)
      by (unfold spacy_load; cbn [host log]; by rewrite Hload).
    rewrite (bind_Ok _ _ _ _ _
               (read_text_Ok file_path text (log (EvSpacyLoad MODEL_NAME) w) Htext)).
    rewrite (bind_Ok _ _ _ (log (EvNlp text) _) doc)
      by (unfold call_nlp, bind, emit, lift_result; by rewrite Hnlp).
    rewrite collect_tokens_init. cbn [from_option].
    rewrite bind_ret, pd_DataFrame_analyses_after, bind_lift_Ok.
    unfold to_csv. rewrite frame_csv_records.
    erewrite bind_Ok.
    2:{ apply write_text_Ok; [|exact He1]. by rewrite ?host_log. }
    apply bind_Raise. exact Hfail. }
  split; [exact He|].
  split; [subst w1; rewrite file_content_log; apply file_content_put|].
  split.
  { intros out Hout. subst w1. rewrite !host_log.
    rewrite !elem_of_cons, elem_of_nil in Hout.
    destruct Hout as [->|[->|[->|[]]]]; by rewrite fs_put_ne by discriminate. }
  subst w1. unfold put, log, set_host. cbn [trace host stdin]. by rewrite <- !app_assoc.
Qed.

End Blocked.

(** ** The line endings of the input *)



(** X11 on a machine where [noun_chunks.txt] is a directory. *)
Lemma X11_unwritable_target_stops_the_export_witness :
  exists w',
    process_text_file Sample.render Sample.partial (py "gato.txt")
      (mkWorld Sample.machine_blocked [] []) = (Raise IsADirectoryError, w')
    /\ fs (host w') !! ENTIDADES_TXT = None.
Proof.
  destruct (X11_unwritable_target_stops_the_export Sample.render Sample.partial
              (py "gato.txt") (mkWorld Sample.machine_blocked [] [])
              Sample.TEXT_GATO Sample.nlp Sample.doc_gato
              (default [] (utf8_encode (tokens_csv_text Sample.doc_gato))))
    as (e & w' & H1 & _ & _ & H4 & _);
    [vm_compute; reflexivity ..|].
  exists w'. split.
  - pose proof H1 as H1'. vm_compute in H1'. injection H1' as He _.
    rewrite He. exact H1.
  - rewrite H4; [vm_compute; reflexivity|].
    apply list_elem_of_further, list_elem_of_here.
Defined.

